(** * PO2XL: the purchase-order extraction script, embedded and verified

    The program is one Streamlit script, [PO2XL.py].  A run of the script
    reads an optional uploaded file, forwards an image or the text of a PDF
    to a hosted model, parses the answer as a pipe-delimited table with
    pandas, shows the table and offers it as a spreadsheet.

    The embedding follows the script statement by statement.  A run is a
    value of the monad [Script]: the list of the calls it made to the user
    interface and to the outside world, and either a returned value or the
    exception that escaped.  Whatever the script obtains from code outside
    the repository (the hosted model, PIL, PyMuPDF, the spreadsheet writer)
    is read from a [World]; the part of pandas the parser relies on is
    defined here. *)

From Stdlib Require Import String Ascii DecimalString.
From Stdlib Require Import List NArith ZArith Lia Bool.
Import ListNotations.

Set Implicit Arguments.

(** ** Python text, bytes and exceptions *)

Module Py.

(** A [str] is the sequence of its code points. *)
Definition char := N.
Definition str := list char.
Definition bytes := list Byte.byte.

(** ASCII literals of the script. *)
Definition lit (s : string) : str :=
  map N_of_ascii (list_ascii_of_string s).
Arguments lit s%_string.

Definition LF : char := 10%N.
Definition CR : char := 13%N.
Definition SPACE : char := 32%N.
Definition TAB : char := 9%N.
Definition PIPE : char := 124%N.
Definition DQUOTE : char := 34%N.

(** A triple-quoted literal, given line by line. *)
Definition unlines (ls : list string) : str :=
  concat (map (fun l => lit l ++ [LF]) ls).

Fixpoint str_eqb (a b : str) : bool :=
  match a, b with
  | [], [] => true
  | x :: a', y :: b' => N.eqb x y && str_eqb a' b'
  | _, _ => false
  end.

(** [s.startswith(p)] *)
Fixpoint startswith (p s : str) : bool :=
  match p, s with
  | [], _ => true
  | x :: p', y :: s' => N.eqb x y && startswith p' s'
  | _ :: _, [] => false
  end.

(** [x in xs] for a list of strings *)
Definition str_in (x : str) (xs : list str) : bool := existsb (str_eqb x) xs.

(** [str(n)] for a non-negative integer *)
Definition str_of_nat (n : nat) : str :=
  lit (NilZero.string_of_uint (Nat.to_uint n)).

(** [c.isspace()]: the code points Python counts as whitespace. *)
Definition isspace (c : char) : bool :=
  ((9 <=? c) && (c <=? 13) || (28 <=? c) && (c <=? 32)
   || (c =? 133) || (c =? 160) || (c =? 5760)
   || (8192 <=? c) && (c <=? 8202)
   || (c =? 8232) || (c =? 8233) || (c =? 8239) || (c =? 8287)
   || (c =? 12288))%N.

Fixpoint lstrip (s : str) : str :=
  match s with
  | c :: s' => if isspace c then lstrip s' else s
  | [] => []
  end.

Definition rstrip (s : str) : str := rev (lstrip (rev s)).

(** [s.strip()] *)
Definition strip (s : str) : str := rstrip (lstrip s).

(** Truth value of a string or a list: non-empty. *)
Definition truthy {A} (l : list A) : bool :=
  match l with [] => false | _ :: _ => true end.

(** [s.encode()]: UTF-8.  Text that reaches the script was decoded from
    UTF-8 by the libraries that produce it, so it holds no surrogate and
    the encoder is total on it. *)
Definition byte_of_N (n : N) : Byte.byte :=
  match Byte.of_N n with Some b => b | None => Byte.x00 end.

Definition cont_byte (c : N) (shift : N) : Byte.byte :=
  byte_of_N (N.lor 128 (N.land (N.shiftr c shift) 63)).

Definition encode_char (c : char) : bytes :=
  if (c <? 128)%N then [byte_of_N c]
  else if (c <? 2048)%N then
    [byte_of_N (N.lor 192 (N.shiftr c 6)); cont_byte c 0]
  else if (c <? 65536)%N then
    [byte_of_N (N.lor 224 (N.shiftr c 12)); cont_byte c 6; cont_byte c 0]
  else
    [byte_of_N (N.lor 240 (N.land (N.shiftr c 18) 7));
     cont_byte c 12; cont_byte c 6; cont_byte c 0].

Definition encode (s : str) : bytes := flat_map encode_char s.

(** Exceptions.  Every class below derives from [Exception]; [msg] is
    [str(e)], what an f-string prints for [{e}]. *)
Inductive exn_class :=
| ValueError | AttributeError | KeyError | IndexError
| ParserError | EmptyDataError
| LibraryError (name : string).
Arguments LibraryError name%_string.

Record exn := Exn { cls : exn_class; msg : str }.

End Py.
Import Py.

(** ** pandas: the C tokenizer as [read_csv(..., delimiter='|')] runs it

    Defaults of [read_csv] apply: the quote character is the double quote
    with doubled quotes inside a quoted field, blank lines are skipped,
    line ends are LF, CR LF or CR, and the first record is the header. *)

Module Tokenizer.

Inductive state :=
| START_RECORD | START_FIELD | IN_FIELD
| IN_QUOTED_FIELD | QUOTE_IN_QUOTED_FIELD
| EAT_CRNL | EAT_CRNL_NOP | WHITESPACE_LINE.

(** [word] and [fields] grow at the head and are reversed when closed;
    [pending] is the blank prefix of the line being read, kept until the
    line turns out not to be blank. *)
Record parser := Parser {
  st : state;
  word : str;
  fields : list str;
  lines : list (list str);
  file_lines : nat;
  pending : str
}.

Definition init : parser :=
  Parser START_RECORD [] [] [] 0 [].

Definition set_state (s : state) (p : parser) : parser :=
  Parser s p.(word) p.(fields) p.(lines) p.(file_lines) p.(pending).

Definition push_char (c : char) (p : parser) : parser :=
  Parser p.(st) (c :: p.(word)) p.(fields) p.(lines) p.(file_lines) p.(pending).

Definition end_field (p : parser) : parser :=
  Parser p.(st) [] (rev p.(word) :: p.(fields)) p.(lines) p.(file_lines) [].

Definition skip_line (s : state) (p : parser) : parser :=
  Parser s [] [] p.(lines) (S p.(file_lines)) [].

(** Fill a record that is too short with empty fields. *)
Definition pad (n : nat) (r : list str) : list str :=
  r ++ repeat [] (n - length r).

Definition too_many_fields (expected line saw : nat) : exn :=
  Exn ParserError
      (lit "Error tokenizing data. C error: Expected " ++ str_of_nat expected
       ++ lit " fields in line " ++ str_of_nat line
       ++ lit ", saw " ++ str_of_nat saw ++ [LF]).

(** [end_line]: the header and the first data record set the width; a
    later record with more fields than the record before it is an error,
    one with fewer is filled up. *)
Definition end_line (p : parser) : exn + parser :=
  let r := rev p.(fields) in
  match p.(lines) with
  | [] =>
      inr (Parser START_RECORD [] [] [r] (S p.(file_lines)) [])
  | prev :: older =>
      if negb (length p.(lines) <=? 1) && (length prev <? length r) then
        inl (too_many_fields (length prev) (S p.(file_lines)) (length r))
      else
        inr (Parser START_RECORD [] []
                    (pad (length prev) r :: p.(lines))
                    (S p.(file_lines)) [])
  end.

Definition is_blank (c : char) : bool := (c =? SPACE)%N || (c =? TAB)%N.

Definition in_field (c : char) (p : parser) : exn + parser :=
  if (c =? LF)%N then end_line (end_field p)
  else if (c =? CR)%N then inr (set_state EAT_CRNL (end_field p))
  else if (c =? PIPE)%N then inr (set_state START_FIELD (end_field p))
  else inr (push_char c p).

Definition start_field (c : char) (p : parser) : exn + parser :=
  if (c =? LF)%N then end_line (end_field p)
  else if (c =? CR)%N then inr (set_state EAT_CRNL (end_field p))
  else if (c =? DQUOTE)%N then inr (set_state IN_QUOTED_FIELD p)
  else if (c =? PIPE)%N then inr (set_state START_FIELD (end_field p))
  else inr (set_state IN_FIELD (push_char c p)).

Definition start_record (c : char) (p : parser) : exn + parser :=
  if (c =? LF)%N then inr (skip_line START_RECORD p)
  else if (c =? CR)%N then inr (skip_line EAT_CRNL_NOP p)
  else if is_blank c then
    inr (Parser WHITESPACE_LINE [] [] p.(lines) p.(file_lines) [c])
  else start_field c p.

Definition step (p : parser) (c : char) : exn + parser :=
  match p.(st) with
  | START_RECORD => start_record c p
  | WHITESPACE_LINE =>
      if (c =? LF)%N then inr (skip_line START_RECORD p)
      else if (c =? CR)%N then inr (skip_line EAT_CRNL_NOP p)
      else if is_blank c then
        inr (Parser WHITESPACE_LINE [] [] p.(lines) p.(file_lines)
                    (p.(pending) ++ [c]))
      else
        (* not a blank line after all: its blank prefix opens the field *)
        in_field c (Parser IN_FIELD (rev p.(pending)) [] p.(lines)
                           p.(file_lines) [])
  | START_FIELD => start_field c p
  | IN_FIELD => in_field c p
  | IN_QUOTED_FIELD =>
      if (c =? DQUOTE)%N then inr (set_state QUOTE_IN_QUOTED_FIELD p)
      else inr (push_char c p)
  | QUOTE_IN_QUOTED_FIELD =>
      if (c =? DQUOTE)%N then inr (set_state IN_QUOTED_FIELD (push_char c p))
      else if (c =? PIPE)%N then inr (set_state START_FIELD (end_field p))
      else if (c =? LF)%N then end_line (end_field p)
      else if (c =? CR)%N then inr (set_state EAT_CRNL (end_field p))
      else inr (set_state IN_FIELD (push_char c p))
  | EAT_CRNL =>
      if (c =? LF)%N then end_line p
      else
        match end_line p with
        | inl e => inl e
        | inr p' => start_record c p'
        end
  | EAT_CRNL_NOP =>
      (* after the CR of a skipped line: a LF or a delimiter is swallowed,
         any other character, a CR too, is read again *)
      if (c =? LF)%N || (c =? PIPE)%N then inr (set_state START_RECORD p)
      else start_record c (set_state START_RECORD p)
  end.

Fixpoint feed (p : parser) (s : str) : exn + parser :=
  match s with
  | [] => inr p
  | c :: s' =>
      match step p c with
      | inl e => inl e
      | inr p' => feed p' s'
      end
  end.

Definition eof_in_string (row : nat) : exn :=
  Exn ParserError
      (lit "Error tokenizing data. C error: EOF inside string starting at row "
       ++ str_of_nat row).

Definition handle_eof (p : parser) : exn + parser :=
  match p.(st) with
  | START_RECORD | WHITESPACE_LINE | EAT_CRNL_NOP => inr p
  | IN_QUOTED_FIELD => inl (eof_in_string p.(file_lines))
  | IN_FIELD | START_FIELD | QUOTE_IN_QUOTED_FIELD => end_line (end_field p)
  | EAT_CRNL => end_line p
  end.

(** A byte order mark at the very start of the data is skipped. *)
Definition BOM : char := 65279%N.

Definition skip_bom (text : str) : str :=
  match text with
  | c :: rest => if (c =? BOM)%N then rest else text
  | [] => []
  end.

(** The records of a text, header first, in file order. *)
Definition tokenize (text : str) : exn + list (list str) :=
  match feed init (skip_bom text) with
  | inl e => inl e
  | inr p =>
      match handle_eof p with
      | inl e => inl e
      | inr p' => inr (rev p'.(lines))
      end
  end.

End Tokenizer.

(** ** pandas: data frames and the operations the script calls *)

Module Pandas.

(** A row label: an integer, or any other key (which never equals an
    integer). *)
Inductive label :=
| Lint (i : Z)
| Lobj (key : list str).

Definition is_label (i : Z) (l : label) : bool :=
  match l with
  | Lint j => Z.eqb i j
  | Lobj _ => false
  end.

(** Cells hold the text of their field; an empty cell is a missing value.
    The conversion of a column to numbers is a function of these texts and
    is left out. *)
Record DataFrame := {
  columns : list str;
  rows : list (label * list str)
}.

(** [RangeIndex(n)] *)
Definition range_index (n : nat) : list label :=
  map (fun i => Lint (Z.of_nat i)) (seq 0 n).

(** Header fields become column labels; the empty field at position [i]
    becomes [Unnamed: i]. *)
Definition header_name (i : nat) (field : str) : str :=
  match field with
  | [] => lit "Unnamed: " ++ str_of_nat i
  | _ :: _ => field
  end.

Fixpoint header_names_from (i : nat) (hdr : list str) : list str :=
  match hdr with
  | [] => []
  | f :: hdr' => header_name i f :: header_names_from (S i) hdr'
  end.

Definition header_names (hdr : list str) : list str := header_names_from 0 hdr.

Section Reader.

(** Two steps of [read_csv] are taken as given rather than defined: how
    repeated column labels are renamed, which differs between releases of
    pandas, and how the leading fields of a row become its label when the
    rows are wider than the header. *)
Variable dedup_names : list str -> list str.
Variable index_label : list (list str) -> list str -> label.

(** [pd.read_csv(StringIO(text), delimiter='|')] *)
Definition read_csv (text : str) : exn + DataFrame :=
  match Tokenizer.tokenize text with
  | inl e => inl e
  | inr [] => inl (Exn EmptyDataError (lit "No columns to parse from file"))
  | inr (hdr :: data) =>
      let leading :=
        match data with
        | [] => 0
        | first :: _ => length first - length hdr
        end in
      let keys := map (firstn leading) data in
      let index :=
        if leading =? 0 then range_index (length data)
        else map (index_label keys) keys in
      inr {| columns := dedup_names (header_names hdr);
             rows := combine index (map (skipn leading) data) |}
  end.

End Reader.

(** Selection by a boolean mask. *)
Fixpoint select {A} (mask : list bool) (xs : list A) : list A :=
  match mask, xs with
  | b :: mask', x :: xs' => if b then x :: select mask' xs' else select mask' xs'
  | _, _ => []
  end.

(** [df.columns.str.contains('^Unnamed')]: the pattern is anchored at the
    start of the label. *)
Definition contains_Unnamed (cols : list str) : list bool :=
  map (startswith (lit "Unnamed")) cols.

(** [~mask] *)
Definition invert (mask : list bool) : list bool := map negb mask.

(** [df.loc[:, mask]] *)
Definition loc_columns (df : DataFrame) (mask : list bool) : DataFrame :=
  {| columns := select mask df.(columns);
     rows := map (fun r => (fst r, select mask (snd r))) df.(rows) |}.

(** [df.drop(i)]: removes every row labelled [i]; a [KeyError] when there
    is none. *)
Definition drop (i : nat) (df : DataFrame) : exn + DataFrame :=
  if existsb (fun r => is_label (Z.of_nat i) (fst r)) df.(rows) then
    inr {| columns := df.(columns);
           rows := filter (fun r => negb (is_label (Z.of_nat i) (fst r)))
                          df.(rows) |}
  else
    inl (Exn KeyError (lit "'[" ++ str_of_nat i ++ lit "] not found in axis'")).

(** [df.reset_index(drop=True)] *)
Definition reset_index (df : DataFrame) : DataFrame :=
  {| columns := df.(columns);
     rows := combine (range_index (length df.(rows))) (map snd df.(rows)) |}.

End Pandas.
Import Pandas.

(** ** The world outside the repository *)

(** A file handed over by the uploader: its declared media type and what
    its two read methods give. *)
Record UploadedFile := {
  type_ : str;
  getvalue : exn + bytes;
  read : exn + bytes
}.

(** [{"mime_type": ..., "data": ...}] *)
Record part := { mime_type : str; data : bytes }.

(** The answer of the hosted model; reading [.text] can itself fail. *)
Record GenerateContentResponse := { text : exn + str }.

(** A page of an opened PDF: what [get_text("text")] gives for it. *)
Definition page := (exn + str)%type.

Record World := {
  (** [st.secrets["GOOGLE_API_KEY"]] *)
  secrets_GOOGLE_API_KEY : exn + str;
  (** [Image.open(uploaded_file)]: PIL identifies the file, the pixel data
      is not read yet *)
  Image_open : UploadedFile -> exn + unit;
  (** [st.image(image, ...)] for the image opened from the file: the
      pixel data is loaded here, which fails for a damaged file *)
  st_image : UploadedFile -> exn + unit;
  (** [tempfile.NamedTemporaryFile(delete=False, suffix=".pdf")] *)
  NamedTemporaryFile : exn + unit;
  (** the bytes written to the temporary file and opened with [fitz.open]:
      the pages of the document *)
  fitz_open : bytes -> exn + list page;
  (** [model.generate_content([part, prompt])] *)
  generate_content : part -> str -> exn + GenerateContentResponse;
  (** [st.dataframe(df)]: the frame is converted for display, which fails
      for a frame the converter cannot take *)
  st_dataframe : DataFrame -> exn + unit;
  (** [df.to_excel(buffer, index=False, engine='openpyxl')]: the bytes
      left in the buffer *)
  to_excel : DataFrame -> exn + bytes;
  dedup_names : list str -> list str;
  index_label : list (list str) -> list str -> label
}.

(** ** Runs of the script *)

(** What a run does that can be observed: the Streamlit calls, the log
    line, and the calls that leave the script for the hosted model, for
    pandas and for the spreadsheet writer.  [St_image] and [St_dataframe]
    stand for an image and a table that were shown: the two calls can
    fail, and then show nothing. *)
Inductive event :=
| St_markdown (body : str)
| St_title (body : str)
| St_image (caption : str) (width : nat)
| St_subheader (body : str)
| St_text_area (name value : str) (height : nat)
| St_warning (body : str)
| St_error (body : str)
| St_dataframe (df : DataFrame)
| St_download_button (name : str) (content : bytes) (file_name mime : str)
| Logging_info (body : str)
| Call_generate_content (p : part) (prompt : str)
| Call_read_csv (source : str)
| Call_to_excel (df : DataFrame).

Inductive result (A : Type) :=
| Returns (a : A)
| Raises (e : exn).
Arguments Returns {A} a.
Arguments Raises {A} e.

Definition Script (A : Type) : Type := (list event * result A)%type.

Definition ret {A} (a : A) : Script A := ([], Returns a).

Definition raise {A} (e : exn) : Script A := ([], Raises e).

Definition bind {A B} (m : Script A) (k : A -> Script B) : Script B :=
  match m with
  | (t, Returns a) => let (t', r) := k a in (t ++ t', r)
  | (t, Raises e) => (t, Raises e)
  end.

Definition emit (ev : event) : Script unit := ([ev], Returns tt).

(** The outcome of a call that leaves the script. *)
Definition lift {A} (x : exn + A) : Script A :=
  match x with
  | inl e => raise e
  | inr a => ret a
  end.

(** [try: body except Exception as e: handler(e)] *)
Definition try_except {A} (body : Script A) (handler : exn -> Script A)
  : Script A :=
  match body with
  | (t, Raises e) => let (t', r) := handler e in (t ++ t', r)
  | (t, Returns a) => (t, Returns a)
  end.

Declare Scope script_scope.
Delimit Scope script_scope with script.
Notation "x <- m ;; k" := (bind m (fun x => k))
  (at level 61, m at next level, right associativity) : script_scope.
Notation "m ;; k" := (bind m (fun _ => k))
  (at level 61, right associativity) : script_scope.
Open Scope script_scope.

Definition trace {A} (m : Script A) : list event := fst m.
Definition outcome {A} (m : Script A) : result A := snd m.

(** ** The script *)

Module PO2XL.

Section Run.

Variable w : World.

Definition input_prompt : str :=
  [LF] ++ unlines [
    "                       You are an expert in reading Purchase Orders.";
    "                       Extract the following details from the Purchase Order document:";
    "                       - Vendor Name";
    "                       - Vendor City";
    "                       - Item Code";
    "                       - Item Name";
    "                       - Number of Items Requested";
    "                       - Unit Price";
    "                       - Total Price";
    "                       ";
    "                        If any of the above details are missing, please fill them with Null().";
    "                        Present the information as a clean, ";
    "                        table-like DataFrame output in plain text.";
    "                        Do not include any code or extra lines. ";
    "                        Format the table to resemble a typical DataFrame displayed in Python terminals.";
    "                        Map Vendor Name and Vendor City to all the other details."
  ]%string ++ lit "                       ".

(** [image_parts[0]] *)
Definition first_part (image_parts : list part) : Script part :=
  match image_parts with
  | p :: _ => ret p
  | [] => raise (Exn IndexError (lit "list index out of range"))
  end.

(** [get_po_details]: one call to the hosted model; every failure inside
    is reported with [st.error] and turned into [None]. *)
Definition get_po_details (image_parts : list part) : Script (option str) :=
  try_except
    ((* the model handle and the prompt are constants *)
     p <- first_part image_parts ;;
     emit (Call_generate_content p input_prompt) ;;
     response <- lift (w.(generate_content) p input_prompt) ;;
     raw <- lift response.(text) ;;
     emit (Logging_info (lit "Raw response: " ++ raw)) ;;
     t <- lift response.(text) ;;
     if negb (truthy t) then
       raise (Exn ValueError (lit "Empty response from the API."))
     else
       t' <- lift response.(text) ;;
       ret (Some t'))
    (fun e =>
       emit (St_error (lit "Error with Gemini model: " ++ e.(msg))) ;;
       ret None).

(** [input_image_setup] *)
Definition input_image_setup (uploaded_file : option UploadedFile)
  : Script (option (list part)) :=
  try_except
    (match uploaded_file with
     | Some f =>
         bytes_data <- lift f.(getvalue) ;;
         ret (Some [ {| mime_type := f.(type_); data := bytes_data |} ])
     | None =>
         emit (St_warning (lit "No file uploaded.")) ;;
         ret None
     end)
    (fun e =>
       emit (St_error (lit "Error processing image: " ++ e.(msg))) ;;
       ret None).

(** The loop of [process_pdf] over the pages, in page order. *)
Fixpoint get_all_text (pdf_text : str) (pages : list page) : Script str :=
  match pages with
  | [] => ret pdf_text
  | pg :: pages' =>
      t <- lift pg ;;
      get_all_text (pdf_text ++ t) pages'
  end.

(** The body of the [try] in [process_pdf]: the text of all pages. *)
Definition read_pdf_text (uploaded_file : UploadedFile) : Script str :=
  lift w.(NamedTemporaryFile) ;;
  content <- lift uploaded_file.(read) ;;
  pdf_document <- lift (w.(fitz_open) content) ;;
  get_all_text [] pdf_document.

(** [process_pdf] *)
Definition process_pdf (uploaded_file : UploadedFile) : Script (option str) :=
  try_except
    (pdf_text <- read_pdf_text uploaded_file ;;
     ret (Some pdf_text))
    (fun e =>
       emit (St_error (lit "Error processing PDF: " ++ e.(msg))) ;;
       ret None).

Definition gradient_css : str :=
  [LF] ++ unlines [
    "<style>";
    "body {";
    "    background: linear-gradient(135deg, #ff7e5f, #feb47b); ";
    "    color: #5F9EA0; ";
    "    font-family: Arial, sans-serif; ";
    "}";
    "</style>"
  ]%string.

Definition image_types : list str :=
  [lit "image/jpeg"; lit "image/png"; lit "image/jpg"].

Definition none_has_no_attribute (name : string) : exn :=
  Exn AttributeError
      (lit "'NoneType' object has no attribute '" ++ lit name ++ lit "'").
Arguments none_has_no_attribute name%_string.

(** Lines 110 to 125: from the uploaded file to [image_data]. *)
Definition file_intake (uploaded_file : option UploadedFile)
  : Script (option (list part)) :=
  match uploaded_file with
  | Some f =>
      let file_type := f.(type_) in
      if str_in file_type image_types then
        lift (w.(Image_open) f) ;;
        lift (w.(st_image) f) ;;
        emit (St_image (lit "Uploaded PO Image") 800) ;;
        input_image_setup (Some f)
      else if str_eqb file_type (lit "application/pdf") then
        pdf_text <- process_pdf f ;;
        match pdf_text with
        | Some t =>
            (if truthy t then
               emit (St_subheader (lit "Uploaded PDF Content Preview")) ;;
               emit (St_text_area (lit "PDF Content")
                                  (firstn 1500 t ++ lit "...") 400)
             else ret tt) ;;
            ret (Some [ {| mime_type := lit "text/plain"; data := encode t |} ])
        | None =>
            (* [if pdf_text:] is false, then [pdf_text.encode()] *)
            raise (none_has_no_attribute "encode")
        end
      else ret None
  | None => ret None
  end.

(** Lines 139 to 146: the table read from the response, without the
    placeholder columns and the row labelled 0, renumbered. *)
Definition parse_response (response : str) : exn + DataFrame :=
  match read_csv w.(dedup_names) w.(index_label) response with
  | inl e => inl e
  | inr df =>
      let df := loc_columns df (invert (contains_Unnamed df.(columns))) in
      match drop 0 df with
      | inl e => inl e
      | inr df => inr (reset_index df)
      end
  end.

Definition xlsx_mime : str :=
  lit "application/vnd.openxmlformats-officedocument.spreadsheetml.sheet".

(** [f"Failed to process the response. Please try again. Error: {e}"] *)
Definition failed_to_process (e : exn) : str :=
  lit "Failed to process the response. Please try again. Error: " ++ e.(msg).

Definition download_button (buffer : bytes) : event :=
  St_download_button (lit "Download as Excel") buffer (lit "data.xlsx")
                     xlsx_mime.

(** Lines 129 to 167: extraction, parsing, display and export. *)
Definition extract_and_show (image_data : option (list part)) : Script unit :=
  match image_data with
  | Some ((_ :: _) as parts) =>
      emit (St_subheader (lit "Extracted Purchase Order Details")) ;;
      try_except
        (response <- get_po_details parts ;;
         match response with
         | None => raise (none_has_no_attribute "strip")
         | Some response =>
             if truthy (strip response) then
               emit (Call_read_csv response) ;;
               df <- lift (parse_response response) ;;
               lift (w.(st_dataframe) df) ;;
               emit (St_dataframe df) ;;
               emit (Call_to_excel df) ;;
               buffer <- lift (w.(to_excel) df) ;;
               emit (download_button buffer)
             else
               emit (St_error
                       (lit "The response is empty. Unable to extract data."))
         end)
        (fun e => emit (St_error (failed_to_process e)))
  | Some [] | None => ret tt
  end.

(** Lines 109 to 167: what one run does with the uploader's value. *)
Definition on_upload (uploaded_file : option UploadedFile) : Script unit :=
  image_data <- file_intake uploaded_file ;;
  extract_and_show image_data.

(** The whole script. *)
Definition script (uploaded_file : option UploadedFile) : Script unit :=
  lift w.(secrets_GOOGLE_API_KEY) ;;
  emit (St_markdown gradient_css) ;;
  emit (St_title (lit "CPO Helper")) ;;
  on_upload uploaded_file.

End Run.

End PO2XL.
Import PO2XL.

(** ** What a trace shows *)

Definition is_error (ev : event) : bool :=
  match ev with St_error _ => true | _ => false end.

Definition is_model_call (ev : event) : bool :=
  match ev with Call_generate_content _ _ => true | _ => false end.

Definition is_read_csv (ev : event) : bool :=
  match ev with Call_read_csv _ => true | _ => false end.

Definition is_dataframe (ev : event) : bool :=
  match ev with St_dataframe _ => true | _ => false end.

Definition is_download (ev : event) : bool :=
  match ev with St_download_button _ _ _ _ => true | _ => false end.

(** An error message is put before the user. *)
Definition reports_error (tr : list event) : bool := existsb is_error tr.

(** Number of calls to the hosted model. *)
Definition model_calls (tr : list event) : nat :=
  length (filter is_model_call tr).

(** [pd.read_csv] is entered: a table is being built. *)
Definition builds_table (tr : list event) : bool := existsb is_read_csv tr.

Definition shows_table (tr : list event) : bool := existsb is_dataframe tr.

Definition offers_download (tr : list event) : bool := existsb is_download tr.

(** ** Concrete worlds and uploads *)

Module Cases.

(** A world in which nothing fails locally, the hosted model gives
    [answer] and an uploaded PDF opens as [pages]. *)
Definition world (answer : exn + GenerateContentResponse)
                 (pages : exn + list page) : World :=
  {| secrets_GOOGLE_API_KEY := inr (lit "key");
     Image_open := fun _ => inr tt;
     st_image := fun _ => inr tt;
     NamedTemporaryFile := inr tt;
     fitz_open := fun _ => pages;
     generate_content := fun _ _ => answer;
     st_dataframe := fun _ => inr tt;
     to_excel := fun _ => inr [Byte.x50; Byte.x4b];
     dedup_names := fun names => names;
     index_label := fun _ key => Lobj key |}.

Definition answers (t : str) : exn + GenerateContentResponse :=
  inr {| text := inr t |}.

Definition png : UploadedFile :=
  {| type_ := lit "image/png";
     getvalue := inr [Byte.x89; Byte.x50; Byte.x4e; Byte.x47];
     read := inr [Byte.x89; Byte.x50; Byte.x4e; Byte.x47] |}.

Definition pdf : UploadedFile :=
  {| type_ := lit "application/pdf";
     getvalue := inr [Byte.x25; Byte.x50; Byte.x44; Byte.x46];
     read := inr [Byte.x25; Byte.x50; Byte.x44; Byte.x46] |}.

Definition gif : UploadedFile :=
  {| type_ := lit "image/gif";
     getvalue := inr [Byte.x47; Byte.x49; Byte.x46];
     read := inr [Byte.x47; Byte.x49; Byte.x46] |}.

(** A markdown table as the model writes it: rule line under the header,
    a pipe at both ends of every line. *)
Definition markdown_table : str :=
  unlines [
    "| Vendor Name | Item Code | Quantity |";
    "|---|---|---|";
    "| Acme | A-17 | 3 |";
    "| Acme | B-02 | 12 |"
  ]%string.

(** Prose in three lines, no pipe anywhere. *)
Definition prose : str :=
  unlines [
    "I could not find a purchase order in this document.";
    "Please upload a clearer scan.";
    "Thank you."
  ]%string.

Definition header_only : str := lit "Vendor Name|Item Code|Quantity".

(** PyMuPDF rejects the file. *)
Definition broken_pdf_error : exn :=
  Exn (LibraryError "FileDataError") (lit "Failed to open file").

End Cases.

(** ** Facts about text *)

Section TextFacts.

Lemma lstrip_nil_iff (s : str) : lstrip s = [] <-> forallb isspace s = true.
Proof.
  induction s as [|c s IH]; simpl.
  - tauto.
  - destruct (isspace c); simpl; [exact IH | split; discriminate].
Qed.

Lemma forallb_rev {A} (f : A -> bool) (l : list A) :
  forallb f (rev l) = forallb f l.
Proof.
  induction l as [|x l IH]; simpl; [reflexivity|].
  rewrite forallb_app, IH. simpl. rewrite andb_true_r. apply andb_comm.
Qed.

(** What [lstrip] leaves starts with a character that is not whitespace. *)
Lemma lstrip_head (s : str) :
  match lstrip s with
  | [] => True
  | c :: _ => isspace c = false
  end.
Proof.
  induction s as [|c s IH]; simpl; [exact I|].
  destruct (isspace c) eqn:E; [exact IH | exact E].
Qed.

(** [strip] leaves nothing exactly of the texts made of whitespace only,
    the empty text among them. *)
Lemma strip_nil_iff (s : str) : strip s = [] <-> forallb isspace s = true.
Proof.
  unfold strip, rstrip. split.
  - intro H.
    assert (H1 : lstrip (rev (lstrip s)) = []).
    { rewrite <- (rev_involutive (lstrip (rev (lstrip s)))), H. reflexivity. }
    apply lstrip_nil_iff in H1. rewrite forallb_rev in H1.
    apply lstrip_nil_iff.
    pose proof (lstrip_head s) as Hh.
    destruct (lstrip s) as [|c t]; [reflexivity|].
    simpl in H1. rewrite Hh in H1. discriminate.
  - intro H. apply lstrip_nil_iff in H. rewrite H. reflexivity.
Qed.

Lemma startswith_app (p s : str) : startswith p (p ++ s) = true.
Proof.
  induction p as [|x p IH]; simpl; [reflexivity|].
  rewrite N.eqb_refl. exact IH.
Qed.

End TextFacts.

(** ** Facts about the data-frame operations *)

Section FrameFacts.

Definition named (c : str) : bool := negb (startswith (lit "Unnamed") c).

Lemma select_invert_contains (cols : list str) :
  select (invert (contains_Unnamed cols)) cols = filter named cols.
Proof.
  unfold invert, contains_Unnamed, named.
  induction cols as [|c cols IH]; cbn [select map filter]; [reflexivity|].
  rewrite IH. reflexivity.
Qed.

Lemma map_snd_combine {A B} (l : list A) (l' : list B) :
  length l = length l' -> map snd (combine l l') = l'.
Proof.
  revert l'. induction l as [|x l IH]; intros [|y l'] H; simpl in *;
    try discriminate; [reflexivity|].
  f_equal. apply IH. lia.
Qed.

Lemma map_fst_combine {A B} (l : list A) (l' : list B) :
  length l = length l' -> map fst (combine l l') = l.
Proof.
  revert l'. induction l as [|x l IH]; intros [|y l'] H; simpl in *;
    try discriminate; [reflexivity|].
  f_equal. apply IH. lia.
Qed.

Lemma length_range_index (n : nat) : length (range_index n) = n.
Proof. unfold range_index. rewrite length_map, length_seq. reflexivity. Qed.

Lemma loc_columns_combine (cols : list str) (idx : list label)
      (cells : list (list str)) (mask : list bool) :
  loc_columns {| columns := cols; rows := combine idx cells |} mask
  = {| columns := select mask cols;
       rows := combine idx (map (select mask) cells) |}.
Proof.
  unfold loc_columns. simpl. f_equal.
  revert cells. induction idx as [|l idx IH]; intros [|c cells]; simpl;
    try reflexivity.
  f_equal. apply IH.
Qed.

(** Labels from [k >= 1] on are not the label 0. *)
Lemma filter_later_labels (k n : nat) (cells : list (list str)) :
  1 <= k ->
  filter (fun r => negb (is_label (Z.of_nat 0) (fst r)))
         (combine (map (fun i => Lint (Z.of_nat i)) (seq k n)) cells)
  = combine (map (fun i => Lint (Z.of_nat i)) (seq k n)) cells.
Proof.
  revert k cells. induction n as [|n IH]; intros k cells Hk;
    [reflexivity|].
  destruct cells as [|c cells]; [reflexivity|].
  cbn [seq map combine filter fst is_label].
  destruct (Z.eqb_spec (Z.of_nat 0) (Z.of_nat k)) as [E|_]; [lia|].
  cbn [negb]. f_equal. apply IH. lia.
Qed.

(** On a frame with the default index and at least one row, [drop(0)]
    removes the first row and [reset_index] renumbers the others. *)
Lemma drop_reset_range (cols : list str) (c : list str)
      (cells : list (list str)) :
  match drop 0 {| columns := cols;
                  rows := combine (range_index (S (length cells)))
                                  (c :: cells) |} with
  | inl _ => False
  | inr df =>
      reset_index df
      = {| columns := cols;
           rows := combine (range_index (length cells)) cells |}
  end.
Proof.
  unfold drop, range_index.
  cbn [seq map combine rows columns existsb filter fst is_label Z.of_nat
       Z.eqb orb negb].
  rewrite filter_later_labels by lia.
  unfold reset_index. cbn [rows columns]. f_equal.
  rewrite map_snd_combine by (rewrite length_map, length_seq; reflexivity).
  rewrite length_combine, length_map, length_seq, Nat.min_id.
  reflexivity.
Qed.

Lemma drop_columns (i : nat) (df df' : DataFrame) :
  drop i df = inr df' -> df'.(columns) = df.(columns).
Proof.
  unfold drop. destruct (existsb _ _); [|discriminate].
  intro H. injection H as <-. reflexivity.
Qed.

Lemma map_skipn_0 {A} (l : list (list A)) : map (skipn 0) l = l.
Proof. induction l as [|x l IH]; cbn [map]; [|rewrite IH]; reflexivity. Qed.

End FrameFacts.

(** ** The tabular response parser (lines 139 to 146) *)

Section ParserFacts.

Variable w : World.

(** The labels the table of a response gets from its header. *)
Definition labels_of (hdr : list str) : list str :=
  w.(dedup_names) (header_names hdr).

(** The columns that survive line 142. *)
Definition kept (hdr : list str) : list bool :=
  invert (contains_Unnamed (labels_of hdr)).

(** A header and data records none of which is wider than the header give
    a frame with the default index. *)
Lemma read_csv_default_index (text : str) (hdr first : list str)
      (rest : list (list str)) :
  Tokenizer.tokenize text = inr (hdr :: first :: rest) ->
  length first <= length hdr ->
  read_csv w.(dedup_names) w.(index_label) text
  = inr {| columns := labels_of hdr;
           rows := combine (range_index (S (length rest))) (first :: rest) |}.
Proof.
  intros Htok Hwidth. unfold read_csv. rewrite Htok.
  replace (length first - length hdr) with 0 by lia.
  cbn [Nat.eqb firstn]. rewrite map_skipn_0. reflexivity.
Qed.

Lemma read_csv_header_only (text : str) (hdr : list str) :
  Tokenizer.tokenize text = inr [hdr] ->
  read_csv w.(dedup_names) w.(index_label) text
  = inr {| columns := labels_of hdr; rows := [] |}.
Proof. intros Htok. unfold read_csv. rewrite Htok. reflexivity. Qed.

Lemma parse_response_default_index (text : str) (hdr first : list str)
      (rest : list (list str)) :
  Tokenizer.tokenize text = inr (hdr :: first :: rest) ->
  length first <= length hdr ->
  parse_response w text
  = inr {| columns := filter named (labels_of hdr);
           rows := combine (range_index (length rest))
                           (map (select (kept hdr)) rest) |}.
Proof.
  intros Htok Hwidth. unfold parse_response.
  rewrite (read_csv_default_index _ Htok Hwidth).
  cbn [columns]. rewrite loc_columns_combine.
  fold (kept hdr). cbn [map].
  pose proof (drop_reset_range (select (kept hdr) (labels_of hdr))
                (select (kept hdr) first)
                (map (select (kept hdr)) rest)) as Hdrop.
  rewrite length_map in Hdrop.
  destruct (drop 0 _) as [e|df]; [contradiction|].
  rewrite Hdrop. unfold kept at 1. rewrite select_invert_contains.
  reflexivity.
Qed.

(** A parse that succeeds went through [read_csv], and its columns are
    the columns of that frame whose label does not start with Unnamed. *)
Lemma parse_response_columns (text : str) (final : DataFrame) :
  parse_response w text = inr final ->
  exists df,
    read_csv w.(dedup_names) w.(index_label) text = inr df /\
    final.(columns) = filter named df.(columns).
Proof.
  unfold parse_response.
  destruct (read_csv _ _ text) as [e|df]; [discriminate|].
  destruct (drop 0 _) as [e|df'] eqn:Hdrop; [discriminate|].
  intro H. injection H as <-. exists df. split; [reflexivity|].
  cbn [reset_index columns]. rewrite (drop_columns _ _ Hdrop).
  cbn [loc_columns columns]. apply select_invert_contains.
Qed.

(** A frame without rows has no row labelled 0. *)
Lemma parse_response_no_rows (text : str) (df : DataFrame) :
  read_csv w.(dedup_names) w.(index_label) text = inr df ->
  df.(rows) = [] ->
  parse_response w text = inl (Exn KeyError (lit "'[0] not found in axis'")).
Proof.
  intros Hread Hrows. unfold parse_response. rewrite Hread.
  unfold loc_columns, drop. rewrite Hrows. reflexivity.
Qed.

End ParserFacts.

(** C3.  For a pipe-delimited response whose header is followed by at
    least two data records, the first of them no wider than the header,
    the parser drops the first data record: the final table holds the
    cells of the second and later records, in order, under the columns
    kept, so its first row is the second data record, and its rows are
    labelled 0, 1, 2, and so on without a gap. *)
Theorem first_data_row_dropped (w : World) (text : str)
        (hdr r1 r2 : list str) (rest : list (list str)) :
  Tokenizer.tokenize text = inr (hdr :: r1 :: r2 :: rest) ->
  length r1 <= length hdr ->
  exists final,
    parse_response w text = inr final /\
    final.(columns) = filter named (labels_of w hdr) /\
    map snd final.(rows) = map (select (kept w hdr)) (r2 :: rest) /\
    map fst final.(rows) = range_index (S (length rest)) /\
    nth_error final.(rows) 0 = Some (Lint 0, select (kept w hdr) r2).
Proof.
  intros Htok Hwidth.
  eexists. split; [apply (parse_response_default_index w _ Htok Hwidth)|].
  cbn [columns rows].
  split; [reflexivity|]. split; [|split].
  - apply map_snd_combine. rewrite length_range_index, length_map. reflexivity.
  - apply map_fst_combine. rewrite length_range_index, length_map. reflexivity.
  - reflexivity.
Qed.

(** C4.  Whenever the parser yields a final table, the columns of that
    table are the columns of the parsed response whose label does not
    start with Unnamed, in their original order; no column labelled
    [Unnamed: N] is left, whatever N. *)
Theorem unnamed_columns_removed (w : World) (text : str) (final : DataFrame) :
  parse_response w text = inr final ->
  exists df,
    read_csv w.(dedup_names) w.(index_label) text = inr df /\
    final.(columns) = filter named df.(columns) /\
    forall n, ~ In (lit "Unnamed: " ++ str_of_nat n) final.(columns).
Proof.
  intro Hparse.
  destruct (parse_response_columns w text Hparse) as [df [Hread Hcols]].
  exists df. split; [exact Hread|]. split; [exact Hcols|].
  intros n Hin. rewrite Hcols in Hin. apply filter_In in Hin.
  destruct Hin as [_ Hnamed]. unfold named in Hnamed.
  change (lit "Unnamed: ") with (lit "Unnamed" ++ lit ": ") in Hnamed.
  rewrite <- app_assoc, startswith_app in Hnamed. discriminate.
Qed.

(** ** Facts about runs *)

Section RunFacts.

Variable w : World.

Lemma model_calls_app (t t' : list event) :
  model_calls (t ++ t') = model_calls t + model_calls t'.
Proof. unfold model_calls. rewrite filter_app, length_app. reflexivity. Qed.

(** The hosted model answers the extraction call for [p] with the text
    [t]. *)
Definition model_answers (p : part) (t : str) : Prop :=
  exists r, w.(generate_content) p input_prompt = inr r /\ r.(text) = inr t.

Definition gemini_error (e : exn) : event :=
  St_error (lit "Error with Gemini model: " ++ e.(msg)).

Definition raw_response (t : str) : event :=
  Logging_info (lit "Raw response: " ++ t).

(** [get_po_details] case by case: what the call gave decides the trace
    and the value; no exception leaves the function. *)
Lemma get_po_details_cases (p : part) (ps : list part) :
  get_po_details w (p :: ps)
  = match w.(generate_content) p input_prompt with
    | inl e =>
        ([Call_generate_content p input_prompt; gemini_error e], Returns None)
    | inr r =>
        match r.(text) with
        | inl e =>
            ([Call_generate_content p input_prompt; gemini_error e],
             Returns None)
        | inr [] =>
            ([Call_generate_content p input_prompt; raw_response [];
              gemini_error
                (Exn ValueError (lit "Empty response from the API."))],
             Returns None)
        | inr (c :: t) =>
            ([Call_generate_content p input_prompt; raw_response (c :: t)],
             Returns (Some (c :: t)))
        end
    end.
Proof.
  unfold get_po_details, first_part, try_except, bind, lift, ret, raise, emit.
  destruct (w.(generate_content) p input_prompt) as [e|r]; [reflexivity|].
  destruct r.(text) as [e|[|c t]]; reflexivity.
Qed.

Lemma get_po_details_answer (p : part) (ps : list part) (t : str) :
  model_answers p t ->
  get_po_details w (p :: ps)
  = match t with
    | [] =>
        ([Call_generate_content p input_prompt; raw_response [];
          gemini_error (Exn ValueError (lit "Empty response from the API."))],
         Returns None)
    | _ :: _ =>
        ([Call_generate_content p input_prompt; raw_response t],
         Returns (Some t))
    end.
Proof.
  intros [r [Hcall Htext]]. rewrite get_po_details_cases, Hcall, Htext.
  destruct t; reflexivity.
Qed.

(** Lines 129 to 167 unfolded on the result of [get_po_details]. *)
Definition subheader_details : event :=
  St_subheader (lit "Extracted Purchase Order Details").

Definition response_is_empty : event :=
  St_error (lit "The response is empty. Unable to extract data.").

Definition after_response (response : option str) : list event :=
  match response with
  | None => [St_error (failed_to_process (none_has_no_attribute "strip"))]
  | Some t =>
      if truthy (strip t) then
        match parse_response w t with
        | inl e => [Call_read_csv t; St_error (failed_to_process e)]
        | inr df =>
            match w.(st_dataframe) df with
            | inl e => [Call_read_csv t; St_error (failed_to_process e)]
            | inr _ =>
                match w.(to_excel) df with
                | inl e =>
                    [Call_read_csv t; St_dataframe df; Call_to_excel df;
                     St_error (failed_to_process e)]
                | inr buffer =>
                    [Call_read_csv t; St_dataframe df; Call_to_excel df;
                     download_button buffer]
                end
            end
        end
      else [response_is_empty]
  end.

Lemma extract_and_show_unfold (p : part) (ps : list part) :
  extract_and_show w (Some (p :: ps))
  = (subheader_details
       :: trace (get_po_details w (p :: ps))
       ++ match outcome (get_po_details w (p :: ps)) with
          | Returns response => after_response response
          | Raises e => [St_error (failed_to_process e)]
          end,
     Returns tt).
Proof.
  unfold extract_and_show, after_response.
  destruct (get_po_details w (p :: ps)) as [tr [[t|]|e]];
    unfold try_except, bind, lift, ret, raise, emit, trace, outcome;
    cbn [fst snd app].
  - destruct (truthy (strip t)); [|reflexivity].
    destruct (parse_response w t) as [e|df]; cbn [app].
    + rewrite <- app_assoc. reflexivity.
    + destruct (w.(st_dataframe) df) as [e|[]]; cbn [app];
        [rewrite <- app_assoc; reflexivity|].
      destruct (w.(to_excel) df) as [e|buffer]; cbn [app];
        rewrite <- ?app_assoc; reflexivity.
  - rewrite app_nil_r. reflexivity.
  - reflexivity.
Qed.

(** No exception leaves lines 129 to 167. *)
Lemma extract_and_show_returns (image_data : option (list part)) :
  outcome (extract_and_show w image_data) = Returns tt.
Proof.
  destruct image_data as [[|p ps]|]; try reflexivity.
  rewrite extract_and_show_unfold. reflexivity.
Qed.

(** What the run shows once the model has answered with the text [t]. *)
Lemma extract_and_show_answer (p : part) (ps : list part) (t : str) :
  model_answers p t ->
  extract_and_show w (Some (p :: ps))
  = (match t with
     | [] =>
         [subheader_details; Call_generate_content p input_prompt;
          raw_response [];
          gemini_error (Exn ValueError (lit "Empty response from the API."));
          St_error (failed_to_process (none_has_no_attribute "strip"))]
     | _ :: _ =>
         subheader_details :: Call_generate_content p input_prompt
           :: raw_response t :: after_response (Some t)
     end,
     Returns tt).
Proof.
  intro Hans. rewrite extract_and_show_unfold.
  rewrite (get_po_details_answer ps Hans).
  destruct t; reflexivity.
Qed.

(** Exactly one call to the hosted model in lines 129 to 167, whatever
    the call gives. *)
Lemma extract_and_show_one_call (p : part) (ps : list part) :
  model_calls (trace (extract_and_show w (Some (p :: ps)))) = 1.
Proof.
  rewrite extract_and_show_unfold, get_po_details_cases.
  unfold trace, outcome.
  destruct (w.(generate_content) p input_prompt) as [e|r]; [reflexivity|].
  destruct r.(text) as [e|[|c t]]; try reflexivity.
  cbn [fst snd app]. unfold after_response.
  destruct (truthy (strip (c :: t))); [|reflexivity].
  destruct (parse_response w (c :: t)) as [e|df]; [reflexivity|].
  destruct (w.(st_dataframe) df) as [e|[]]; [reflexivity|].
  destruct (w.(to_excel) df); reflexivity.
Qed.

(** The page loop says nothing to the user. *)
Lemma get_all_text_trace (acc : str) (pages : list page) :
  trace (get_all_text acc pages) = [].
Proof.
  revert acc. induction pages as [|pg pages IH]; intro acc; [reflexivity|].
  cbn [get_all_text]. destruct pg as [e|t]; [reflexivity|].
  unfold bind, lift, ret. specialize (IH (acc ++ t)).
  destruct (get_all_text (acc ++ t) pages) as [tr r].
  unfold trace in *. cbn [fst] in *. rewrite IH. reflexivity.
Qed.

Lemma read_pdf_text_trace (f : UploadedFile) :
  trace (read_pdf_text w f) = [].
Proof.
  unfold read_pdf_text, bind, lift, ret, raise.
  destruct w.(NamedTemporaryFile) as [e|[]]; [reflexivity|].
  destruct f.(read) as [e|content]; [reflexivity|].
  destruct (w.(fitz_open) content) as [e|doc]; [reflexivity|].
  pose proof (get_all_text_trace [] doc) as H.
  destruct (get_all_text [] doc) as [tr r].
  unfold trace in *. cbn [fst app] in *. rewrite H. reflexivity.
Qed.

Definition pdf_error (e : exn) : event :=
  St_error (lit "Error processing PDF: " ++ e.(msg)).

(** [process_pdf]: the text, or the error shown and [None]. *)
Lemma process_pdf_cases (f : UploadedFile) :
  process_pdf w f
  = match outcome (read_pdf_text w f) with
    | Returns t => ([], Returns (Some t))
    | Raises e => ([pdf_error e], Returns None)
    end.
Proof.
  unfold process_pdf. pose proof (read_pdf_text_trace f) as H.
  destruct (read_pdf_text w f) as [tr r].
  unfold trace, outcome in *. cbn [fst snd] in *. subst tr.
  destruct r; reflexivity.
Qed.

Lemma pdf_is_no_image_type :
  str_in (lit "application/pdf") image_types = false.
Proof. reflexivity. Qed.

Lemma pdf_is_pdf : str_eqb (lit "application/pdf") (lit "application/pdf") = true.
Proof. reflexivity. Qed.

(** Lines 110 to 125 never call the hosted model. *)
Lemma file_intake_no_model_call (uploaded_file : option UploadedFile) :
  model_calls (trace (file_intake w uploaded_file)) = 0.
Proof.
  destruct uploaded_file as [f|]; [|reflexivity].
  unfold file_intake.
  destruct (str_in f.(type_) image_types).
  - unfold input_image_setup, try_except, bind, lift, ret, raise, emit.
    destruct (w.(Image_open) f) as [e|[]]; [reflexivity|].
    destruct (w.(st_image) f) as [e|[]]; [reflexivity|].
    destruct f.(getvalue); reflexivity.
  - destruct (str_eqb f.(type_) (lit "application/pdf")); [|reflexivity].
    rewrite process_pdf_cases.
    destruct (outcome (read_pdf_text w f)) as [t|e]; [|reflexivity].
    unfold bind, ret, emit. destruct (truthy t); reflexivity.
Qed.

(** With the secret in place, the script is its two opening calls and
    then lines 109 to 167. *)
Lemma script_unfold (key : str) (uploaded_file : option UploadedFile) :
  w.(secrets_GOOGLE_API_KEY) = inr key ->
  script w uploaded_file
  = (St_markdown gradient_css :: St_title (lit "CPO Helper")
       :: trace (on_upload w uploaded_file),
     outcome (on_upload w uploaded_file)).
Proof.
  intro Hkey. unfold script. rewrite Hkey.
  destruct (on_upload w uploaded_file) as [tr r].
  unfold bind, lift, ret, emit, trace, outcome. cbn [fst snd app].
  destruct r; reflexivity.
Qed.

End RunFacts.

(** ** The parser path and its failures *)

Definition has_pipe (t : str) : bool := existsb (N.eqb PIPE) t.

(** C1, as amended.  Once the model has answered, a text that is empty or
    whitespace only, and a text whose parse raises (pandas rejects it, or
    the table it gives has no row labelled 0), is reported to the user
    with [st.error]; no table is shown, no download is offered, and the
    run ends normally, no exception leaving the parser path. *)
Theorem parse_failures_reported (w : World) (p : part) (ps : list part)
        (t : str) :
  model_answers w p t ->
  strip t = [] \/ (exists e, parse_response w t = inl e) ->
  outcome (extract_and_show w (Some (p :: ps))) = Returns tt /\
  reports_error (trace (extract_and_show w (Some (p :: ps)))) = true /\
  shows_table (trace (extract_and_show w (Some (p :: ps)))) = false /\
  offers_download (trace (extract_and_show w (Some (p :: ps)))) = false.
Proof.
  intros Hans Hfail. rewrite (extract_and_show_answer ps Hans).
  unfold trace, outcome. cbn [fst snd].
  destruct t as [|c t]; [repeat split|].
  unfold after_response.
  destruct Hfail as [Hblank|[e He]].
  - rewrite Hblank. repeat split.
  - rewrite He. destruct (truthy (strip (c :: t))); repeat split.
Qed.

(** C5.  When the text the model gives is empty or whitespace only, the
    run reports an error, never enters [pd.read_csv], shows no table and
    offers no download. *)
Theorem blank_response_builds_no_table (w : World) (p : part)
        (ps : list part) (t : str) :
  model_answers w p t ->
  forallb isspace t = true ->
  outcome (extract_and_show w (Some (p :: ps))) = Returns tt /\
  reports_error (trace (extract_and_show w (Some (p :: ps)))) = true /\
  builds_table (trace (extract_and_show w (Some (p :: ps)))) = false /\
  shows_table (trace (extract_and_show w (Some (p :: ps)))) = false /\
  offers_download (trace (extract_and_show w (Some (p :: ps)))) = false.
Proof.
  intros Hans Hblank. rewrite (extract_and_show_answer ps Hans).
  unfold trace, outcome. cbn [fst snd].
  destruct t as [|c t]; [repeat split|].
  unfold after_response.
  apply strip_nil_iff in Hblank. rewrite Hblank. repeat split.
Qed.

(** C10.  When the text the model gives is not blank and reads as a table
    without data rows, [drop(0)] raises the [KeyError], the handler of the
    parser path reports it, and the run ends there: no table is shown and
    no download is offered. *)
Theorem table_without_rows_reported (w : World) (p : part) (ps : list part)
        (t : str) (df : DataFrame) :
  model_answers w p t ->
  truthy (strip t) = true ->
  read_csv w.(dedup_names) w.(index_label) t = inr df ->
  df.(rows) = [] ->
  drop 0 (loc_columns df (invert (contains_Unnamed df.(columns))))
  = inl (Exn KeyError (lit "'[0] not found in axis'")) /\
  extract_and_show w (Some (p :: ps))
  = ([subheader_details; Call_generate_content p input_prompt;
      raw_response t; Call_read_csv t;
      St_error
        (lit "Failed to process the response. Please try again. Error: '[0] not found in axis'")],
     Returns tt) /\
  shows_table (trace (extract_and_show w (Some (p :: ps)))) = false /\
  offers_download (trace (extract_and_show w (Some (p :: ps)))) = false.
Proof.
  intros Hans Hstrip Hread Hrows.
  assert (Hrun : extract_and_show w (Some (p :: ps))
                 = ([subheader_details; Call_generate_content p input_prompt;
                     raw_response t; Call_read_csv t;
                     St_error
                       (failed_to_process
                          (Exn KeyError (lit "'[0] not found in axis'")))],
                    Returns tt)).
  { rewrite (extract_and_show_answer ps Hans).
    destruct t as [|c t]; [discriminate Hstrip|].
    unfold after_response.
    rewrite Hstrip, (parse_response_no_rows w _ Hread Hrows).
    reflexivity. }
  split; [|split; [exact Hrun | rewrite Hrun; split; reflexivity]].
  unfold loc_columns, drop. rewrite Hrows. reflexivity.
Qed.

(** ** File intake and the extraction call *)

Definition supported_types : list str :=
  [lit "image/jpeg"; lit "image/png"; lit "image/jpg"; lit "application/pdf"].

(** C6.  An uploaded file whose media type is none of image/jpeg,
    image/png, image/jpg and application/pdf leaves the run without any
    effect: the hosted model is not called and no download is offered. *)
Theorem unsupported_type_is_ignored (w : World) (f : UploadedFile) :
  str_in f.(type_) supported_types = false ->
  on_upload w (Some f) = ([], Returns tt) /\
  model_calls (trace (on_upload w (Some f))) = 0 /\
  offers_download (trace (on_upload w (Some f))) = false.
Proof.
  intro Htype.
  assert (Hrun : on_upload w (Some f) = ([], Returns tt)).
  { unfold str_in, supported_types in Htype. cbn [existsb] in Htype.
    repeat (apply orb_false_elim in Htype; destruct Htype as [? Htype]).
    unfold on_upload, file_intake, str_in, image_types. cbn [existsb].
    repeat match goal with H : str_eqb _ _ = false |- _ => rewrite H; clear H end.
    reflexivity. }
  rewrite Hrun. repeat split.
Qed.

(** File intake hands a payload to the extraction step. *)
Definition yields_payload (r : result (option (list part))) : bool :=
  match r with
  | Returns (Some (_ :: _)) => true
  | _ => false
  end.

Definition succeeded {A} (x : exn + A) : bool :=
  match x with inr _ => true | inl _ => false end.

Definition returned {A} (r : result A) : bool :=
  match r with Returns _ => true | Raises _ => false end.

(** The uploads that get through lines 110 to 125: an image that PIL
    opens, that [st.image] shows and whose bytes can be read, or a PDF
    whose text can be read. *)
Definition intake_succeeds (w : World) (uploaded_file : option UploadedFile)
  : bool :=
  match uploaded_file with
  | None => false
  | Some f =>
      if str_in f.(type_) image_types then
        succeeded (w.(Image_open) f) && succeeded (w.(st_image) f)
        && succeeded f.(getvalue)
      else if str_eqb f.(type_) (lit "application/pdf") then
        returned (outcome (read_pdf_text w f))
      else false
  end.

Lemma yields_payload_cases (w : World) (uploaded_file : option UploadedFile) :
  yields_payload (outcome (file_intake w uploaded_file))
  = intake_succeeds w uploaded_file.
Proof.
  destruct uploaded_file as [f|]; [|reflexivity].
  unfold file_intake, intake_succeeds.
  destruct (str_in f.(type_) image_types).
  - unfold input_image_setup, try_except, bind, lift, ret, raise, emit.
    destruct (w.(Image_open) f) as [e|[]]; [reflexivity|].
    destruct (w.(st_image) f) as [e|[]]; [reflexivity|].
    destruct f.(getvalue); reflexivity.
  - destruct (str_eqb f.(type_) (lit "application/pdf")); [|reflexivity].
    rewrite process_pdf_cases.
    destruct (outcome (read_pdf_text w f)) as [t|e]; [|reflexivity].
    unfold bind, ret, emit. destruct (truthy t); reflexivity.
Qed.

(** C7, as amended.  A run calls the hosted model once when file intake
    yields a payload, that is for an image that opens, is shown and whose
    bytes are read and for a PDF whose text is read, and not at all
    otherwise;
    whatever the call gives, an answer, an error or an empty text, it is
    not made again. *)
Theorem one_call_per_payload (w : World) (uploaded_file : option UploadedFile) :
  model_calls (trace (on_upload w uploaded_file))
  = if intake_succeeds w uploaded_file then 1 else 0.
Proof.
  rewrite <- yields_payload_cases. unfold on_upload.
  pose proof (file_intake_no_model_call w uploaded_file) as Hintake.
  destruct (file_intake w uploaded_file) as [tr r].
  unfold trace, outcome in *. cbn [fst snd] in *.
  destruct r as [[[|p ps]|]|e]; unfold bind; cbn [yields_payload].
  - cbn [extract_and_show ret fst]. rewrite app_nil_r. exact Hintake.
  - pose proof (extract_and_show_one_call w p ps) as Hone.
    destruct (extract_and_show w (Some (p :: ps))) as [tr' r'].
    unfold trace in Hone. cbn [fst] in *.
    rewrite model_calls_app, Hintake, Hone. reflexivity.
  - cbn [extract_and_show ret fst]. rewrite app_nil_r. exact Hintake.
  - exact Hintake.
Qed.

(** C9.  When reading the text of an uploaded PDF fails, [process_pdf]
    shows the error and returns [None]; line 125 then takes [encode] of
    that [None] outside every handler, and the [AttributeError] ends the
    run before the extraction step. *)
Theorem failed_pdf_text_escapes (w : World) (f : UploadedFile) (e : exn) :
  f.(type_) = lit "application/pdf" ->
  outcome (read_pdf_text w f) = Raises e ->
  process_pdf w f = ([pdf_error e], Returns None) /\
  on_upload w (Some f)
  = ([pdf_error e], Raises (none_has_no_attribute "encode")).
Proof.
  intros Htype Hfail.
  assert (Hpdf : process_pdf w f = ([pdf_error e], Returns None)).
  { rewrite process_pdf_cases, Hfail. reflexivity. }
  split; [exact Hpdf|].
  unfold on_upload, file_intake.
  rewrite Htype, pdf_is_no_image_type, pdf_is_pdf, Hpdf. reflexivity.
Qed.

(** ** The claims on concrete runs *)

Module Runs.

Import Cases.

Definition png_part : part :=
  {| mime_type := lit "image/png";
     data := [Byte.x89; Byte.x50; Byte.x4e; Byte.x47] |}.

(** The model answers [t]; an uploaded PDF has no pages. *)
Definition answering (t : str) : World := world (answers t) (inr []).

(** The model would answer with a table, but an uploaded PDF cannot be
    opened. *)
Definition unreadable_pdf : World :=
  world (answers markdown_table) (inl broken_pdf_error).

Lemma answering_answers (t : str) (p : part) : model_answers (answering t) p t.
Proof. exists {| text := inr t |}. split; reflexivity. Qed.

(** C1 as the specification has it fails: three lines of prose without a
    single pipe are read as a table of one column; no error is reported,
    the table is shown and the download is offered. *)
Lemma prose_without_pipes_is_accepted :
  has_pipe prose = false /\
  reports_error (trace (extract_and_show (answering prose) (Some [png_part])))
  = false /\
  shows_table (trace (extract_and_show (answering prose) (Some [png_part])))
  = true /\
  offers_download (trace (extract_and_show (answering prose) (Some [png_part])))
  = true.
Proof. vm_compute. repeat split. Qed.

Lemma parse_failures_reported_witness :
  model_answers (answering header_only) png_part header_only /\
  (strip header_only = [] \/
   exists e, parse_response (answering header_only) header_only = inl e) /\
  outcome (extract_and_show (answering header_only) (Some [png_part]))
  = Returns tt /\
  reports_error
    (trace (extract_and_show (answering header_only) (Some [png_part])))
  = true /\
  shows_table
    (trace (extract_and_show (answering header_only) (Some [png_part])))
  = false /\
  offers_download
    (trace (extract_and_show (answering header_only) (Some [png_part])))
  = false.
Proof.
  assert (Hfail : strip header_only = [] \/
                  exists e, parse_response (answering header_only) header_only
                            = inl e).
  { right. eexists. vm_compute. reflexivity. }
  split; [apply answering_answers|]. split; [exact Hfail|].
  exact (parse_failures_reported (w := answering header_only) []
           (answering_answers header_only png_part) Hfail).
Defined.

(** C2 fails on the code: with a PDF that cannot be opened the run shows
    the error of [process_pdf] and then ends with an exception nothing
    catches; and without a file no message is shown at all. *)
Lemma failed_pdf_aborts_the_script :
  script unreadable_pdf (Some pdf)
  = ([St_markdown gradient_css; St_title (lit "CPO Helper");
      pdf_error broken_pdf_error],
     Raises (none_has_no_attribute "encode")) /\
  script unreadable_pdf None
  = ([St_markdown gradient_css; St_title (lit "CPO Helper")], Returns tt).
Proof. split; reflexivity. Qed.

Definition table_header : list str :=
  [[]; lit " Vendor Name "; lit " Item Code "; lit " Quantity "; []].

Definition table_rule : list str := [[]; lit "---"; lit "---"; lit "---"; []].

Definition table_row_1 : list str :=
  [[]; lit " Acme "; lit " A-17 "; lit " 3 "; []].

Definition table_row_2 : list str :=
  [[]; lit " Acme "; lit " B-02 "; lit " 12 "; []].

Lemma first_data_row_dropped_witness :
  Tokenizer.tokenize markdown_table
  = inr [table_header; table_rule; table_row_1; table_row_2] /\
  length table_rule <= length table_header /\
  exists final,
    parse_response (answering markdown_table) markdown_table = inr final /\
    final.(columns)
    = filter named (labels_of (answering markdown_table) table_header) /\
    map snd final.(rows)
    = map (select (kept (answering markdown_table) table_header))
          [table_row_1; table_row_2] /\
    map fst final.(rows) = range_index 2 /\
    nth_error final.(rows) 0
    = Some (Lint 0,
            select (kept (answering markdown_table) table_header) table_row_1).
Proof.
  assert (Htok : Tokenizer.tokenize markdown_table
                 = inr [table_header; table_rule; table_row_1; table_row_2])
    by (vm_compute; reflexivity).
  assert (Hwidth : length table_rule <= length table_header)
    by (simpl; lia).
  split; [exact Htok|]. split; [exact Hwidth|].
  exact (first_data_row_dropped (answering markdown_table) markdown_table
           Htok Hwidth).
Defined.

Definition parsed_table : DataFrame :=
  {| columns := [lit " Vendor Name "; lit " Item Code "; lit " Quantity "];
     rows := [(Lint 0, [lit " Acme "; lit " A-17 "; lit " 3 "]);
              (Lint 1, [lit " Acme "; lit " B-02 "; lit " 12 "])] |}.

Lemma unnamed_columns_removed_witness :
  parse_response (answering markdown_table) markdown_table = inr parsed_table /\
  exists df,
    read_csv (answering markdown_table).(dedup_names)
             (answering markdown_table).(index_label) markdown_table
    = inr df /\
    parsed_table.(columns) = filter named df.(columns) /\
    forall n, ~ In (lit "Unnamed: " ++ str_of_nat n) parsed_table.(columns).
Proof.
  assert (Hparse : parse_response (answering markdown_table) markdown_table
                   = inr parsed_table) by (vm_compute; reflexivity).
  split; [exact Hparse|].
  exact (unnamed_columns_removed (answering markdown_table) markdown_table
           Hparse).
Defined.

Definition blank : str := [SPACE; LF; TAB].

Lemma blank_response_builds_no_table_witness :
  model_answers (answering blank) png_part blank /\
  forallb isspace blank = true /\
  outcome (extract_and_show (answering blank) (Some [png_part])) = Returns tt /\
  reports_error (trace (extract_and_show (answering blank) (Some [png_part])))
  = true /\
  builds_table (trace (extract_and_show (answering blank) (Some [png_part])))
  = false /\
  shows_table (trace (extract_and_show (answering blank) (Some [png_part])))
  = false /\
  offers_download (trace (extract_and_show (answering blank) (Some [png_part])))
  = false.
Proof.
  split; [apply answering_answers|]. split; [reflexivity|].
  apply (blank_response_builds_no_table (w := answering blank) []
           (answering_answers blank png_part)).
  reflexivity.
Defined.

Lemma unsupported_type_is_ignored_witness :
  str_in gif.(type_) supported_types = false /\
  on_upload (answering markdown_table) (Some gif) = ([], Returns tt) /\
  model_calls (trace (on_upload (answering markdown_table) (Some gif))) = 0 /\
  offers_download (trace (on_upload (answering markdown_table) (Some gif)))
  = false.
Proof.
  split; [reflexivity|].
  apply (unsupported_type_is_ignored (answering markdown_table) gif).
  reflexivity.
Defined.

(** C7 as the specification has it fails: an uploaded PDF that cannot be
    opened leads to no extraction call at all. *)
Lemma unreadable_pdf_issues_no_call :
  pdf.(type_) = lit "application/pdf" /\
  model_calls (trace (on_upload unreadable_pdf (Some pdf))) = 0 /\
  model_calls (trace (on_upload unreadable_pdf (Some pdf))) <> 1.
Proof. split; [reflexivity|]. split; [reflexivity|]. vm_compute. discriminate. Qed.

Lemma failed_pdf_text_escapes_witness :
  pdf.(type_) = lit "application/pdf" /\
  outcome (read_pdf_text unreadable_pdf pdf) = Raises broken_pdf_error /\
  process_pdf unreadable_pdf pdf
  = ([pdf_error broken_pdf_error], Returns None) /\
  on_upload unreadable_pdf (Some pdf)
  = ([pdf_error broken_pdf_error], Raises (none_has_no_attribute "encode")).
Proof.
  split; [reflexivity|]. split; [reflexivity|].
  apply (failed_pdf_text_escapes unreadable_pdf pdf); reflexivity.
Defined.

Lemma table_without_rows_reported_witness :
  model_answers (answering header_only) png_part header_only /\
  truthy (strip header_only) = true /\
  read_csv (answering header_only).(dedup_names)
           (answering header_only).(index_label) header_only
  = inr {| columns := [lit "Vendor Name"; lit "Item Code"; lit "Quantity"];
           rows := [] |} /\
  extract_and_show (answering header_only) (Some [png_part])
  = ([subheader_details; Call_generate_content png_part input_prompt;
      raw_response header_only; Call_read_csv header_only;
      St_error
        (lit "Failed to process the response. Please try again. Error: '[0] not found in axis'")],
     Returns tt).
Proof.
  assert (Hread : read_csv (answering header_only).(dedup_names)
                           (answering header_only).(index_label) header_only
                  = inr {| columns := [lit "Vendor Name"; lit "Item Code";
                                       lit "Quantity"];
                           rows := [] |}) by (vm_compute; reflexivity).
  split; [apply answering_answers|]. split; [reflexivity|].
  split; [exact Hread|].
  apply (table_without_rows_reported (w := answering header_only) []
           (answering_answers header_only png_part) eq_refl Hread eq_refl).
Defined.

End Runs.

(** ** Further properties of the script *)

(** *** The extraction client, [get_po_details] *)

(** X1.  [get_po_details] never raises, whatever the hosted model does
    and even for an empty list of parts.  It returns [None] only after it
    has shown an error message, and it returns a text only when the model
    answered the first part with exactly that text, which is then not
    empty, was logged, and came with no error message. *)
Theorem get_po_details_never_raises (w : World) (parts : list part) :
  exists tr r,
    get_po_details w parts = (tr, Returns r) /\
    match r with
    | None => reports_error tr = true
    | Some t =>
        t <> [] /\
        exists p ps,
          parts = p :: ps /\ model_answers w p t /\
          tr = [Call_generate_content p input_prompt; raw_response t]
    end.
Proof.
  destruct parts as [|p ps].
  - eexists. exists None. split; reflexivity.
  - rewrite get_po_details_cases.
    destruct (w.(generate_content) p input_prompt) as [e|r] eqn:Hcall.
    + eexists. exists None. split; reflexivity.
    + destruct r.(text) as [e|[|c t]] eqn:Htext.
      * eexists. exists None. split; reflexivity.
      * eexists. exists None. split; reflexivity.
      * eexists. exists (Some (c :: t)). split; [reflexivity|].
        split; [discriminate|]. exists p, ps. split; [reflexivity|].
        split; [|reflexivity]. exists r. split; assumption.
Qed.

(** X2.  When the call to the hosted model raises, the user gets two
    error messages: the one of [get_po_details] with the model's error,
    and then the one of the parser path, about [strip] on [None]. *)
Theorem failed_model_call_reported_twice (w : World) (p : part)
        (ps : list part) (e : exn) :
  w.(generate_content) p input_prompt = inl e ->
  extract_and_show w (Some (p :: ps))
  = ([subheader_details; Call_generate_content p input_prompt;
      St_error (lit "Error with Gemini model: " ++ e.(msg));
      St_error
        (lit "Failed to process the response. Please try again. Error: 'NoneType' object has no attribute 'strip'")],
     Returns tt).
Proof.
  intro Hcall. rewrite extract_and_show_unfold, get_po_details_cases, Hcall.
  reflexivity.
Qed.

Lemma failed_is_not_empty_message (e : exn) :
  St_error (failed_to_process e) <> response_is_empty.
Proof.
  intro H. injection H as H. unfold failed_to_process in H.
  vm_compute in H. discriminate H.
Qed.

Lemma gemini_is_not_empty_message (e : exn) :
  gemini_error e <> response_is_empty.
Proof.
  intro H. injection H as H. vm_compute in H. discriminate H.
Qed.

(** Membership of the line-164 message in an explicit trace. *)
Ltac no_empty_message H :=
  cbn [In] in H;
  repeat (destruct H as [H|H];
          [solve [ discriminate H
                 | exfalso; exact (failed_is_not_empty_message H)
                 | exfalso; exact (gemini_is_not_empty_message H) ]|]);
  try contradiction.

(** X3.  Once the model has answered, the message that the response is
    empty (line 164) is shown exactly for the answers that are not empty
    but consist of whitespace only; for the empty answer it is never
    shown. *)
Theorem empty_message_iff_whitespace (w : World) (p : part) (ps : list part)
        (t : str) :
  model_answers w p t ->
  In response_is_empty (trace (extract_and_show w (Some (p :: ps))))
  <-> t <> [] /\ forallb isspace t = true.
Proof.
  intro Hans. rewrite (extract_and_show_answer ps Hans).
  unfold trace. cbn [fst]. destruct t as [|c t].
  - split.
    + intro H. no_empty_message H.
    + intros [H _]. exfalso. apply H. reflexivity.
  - unfold after_response.
    destruct (truthy (strip (c :: t))) eqn:Hstrip.
    + split.
      * intro H. exfalso.
        destruct (parse_response w (c :: t)) as [e|df];
          [|destruct (w.(st_dataframe) df) as [e|[]];
            [|destruct (w.(to_excel) df) as [e|buffer]]];
          no_empty_message H.
      * intros [_ Hblank]. apply strip_nil_iff in Hblank.
        rewrite Hblank in Hstrip. discriminate Hstrip.
    + split.
      * intros _. split; [discriminate|]. apply strip_nil_iff.
        destruct (strip (c :: t)); [reflexivity | discriminate Hstrip].
      * intros _. cbn [In]. right. right. right. left. reflexivity.
Qed.

(** *** File intake: lines 110 to 125 with their helpers *)

Section IntakeFacts.

Variable w : World.

Definition image_shown : event := St_image (lit "Uploaded PO Image") 800.

Definition image_error (e : exn) : event :=
  St_error (lit "Error processing image: " ++ e.(msg)).

Definition pdf_preview (t : str) : list event :=
  if truthy t then
    [St_subheader (lit "Uploaded PDF Content Preview");
     St_text_area (lit "PDF Content") (firstn 1500 t ++ lit "...") 400]
  else [].

Definition text_part (t : str) : part :=
  {| mime_type := lit "text/plain"; data := encode t |}.

(** Lines 113 to 125 case by case. *)
Lemma file_intake_cases (f : UploadedFile) :
  file_intake w (Some f)
  = if str_in f.(type_) image_types then
      match w.(Image_open) f with
      | inl e => ([], Raises e)
      | inr _ =>
          match w.(st_image) f with
          | inl e => ([], Raises e)
          | inr _ =>
              match f.(getvalue) with
              | inl e => ([image_shown; image_error e], Returns None)
              | inr b =>
                  ([image_shown],
                   Returns (Some [ {| mime_type := f.(type_); data := b |} ]))
              end
          end
      end
    else if str_eqb f.(type_) (lit "application/pdf") then
      match outcome (read_pdf_text w f) with
      | Raises e => ([pdf_error e], Raises (none_has_no_attribute "encode"))
      | Returns t => (pdf_preview t, Returns (Some [text_part t]))
      end
    else ([], Returns None).
Proof.
  unfold file_intake.
  destruct (str_in f.(type_) image_types).
  - unfold input_image_setup, try_except, bind, lift, ret, raise, emit.
    destruct (w.(Image_open) f) as [e|[]]; [reflexivity|].
    destruct (w.(st_image) f) as [e|[]]; [reflexivity|].
    destruct f.(getvalue); reflexivity.
  - destruct (str_eqb f.(type_) (lit "application/pdf")); [|reflexivity].
    rewrite process_pdf_cases.
    destruct (outcome (read_pdf_text w f)) as [t|e]; [|reflexivity].
    unfold bind, ret, emit, pdf_preview. destruct (truthy t); reflexivity.
Qed.

(** Lines 109 to 167 on the result of file intake. *)
Lemma on_upload_unfold (uploaded_file : option UploadedFile) :
  on_upload w uploaded_file
  = match outcome (file_intake w uploaded_file) with
    | Returns (Some (p :: ps)) =>
        (trace (file_intake w uploaded_file)
           ++ trace (extract_and_show w (Some (p :: ps))),
         Returns tt)
    | Returns _ => (trace (file_intake w uploaded_file), Returns tt)
    | Raises e => (trace (file_intake w uploaded_file), Raises e)
    end.
Proof.
  unfold on_upload.
  destruct (file_intake w uploaded_file) as [tr [[[|p ps]|]|e]];
    unfold bind, trace, outcome; cbn [fst snd].
  - cbn [extract_and_show ret]. rewrite app_nil_r. reflexivity.
  - pose proof (extract_and_show_returns w (Some (p :: ps))) as Hret.
    destruct (extract_and_show w (Some (p :: ps))) as [tr' r'].
    unfold outcome in Hret. cbn [fst snd] in *. rewrite Hret. reflexivity.
  - cbn [extract_and_show ret]. rewrite app_nil_r. reflexivity.
  - reflexivity.
Qed.

(** The page loop adds the texts of the pages in page order. *)
Lemma get_all_text_pages (acc : str) (texts : list str) :
  get_all_text acc (map inr texts) = ([], Returns (acc ++ concat texts)).
Proof.
  revert acc. induction texts as [|t texts IH]; intro acc.
  - cbn [map get_all_text concat]. rewrite app_nil_r. reflexivity.
  - cbn [map get_all_text concat]. unfold bind, lift, ret.
    rewrite IH, app_assoc. reflexivity.
Qed.

(** It stops at the first page whose text cannot be read. *)
Lemma get_all_text_failing_page (acc : str) (texts : list str) (e : exn)
      (rest : list page) :
  get_all_text acc (map inr texts ++ inl e :: rest) = ([], Raises e).
Proof.
  revert acc. induction texts as [|t texts IH]; intro acc.
  - reflexivity.
  - cbn [map app get_all_text]. unfold bind, lift, ret.
    rewrite IH. reflexivity.
Qed.

(** Once the document is open, reading its text is the page loop. *)
Lemma read_pdf_text_opened (f : UploadedFile) (content : bytes)
      (pages : list page) :
  w.(NamedTemporaryFile) = inr tt ->
  f.(read) = inr content ->
  w.(fitz_open) content = inr pages ->
  read_pdf_text w f = get_all_text [] pages.
Proof.
  intros Htmp Hread Hopen. unfold read_pdf_text, bind, lift, ret.
  rewrite Htmp. cbn beta iota. rewrite Hread. cbn beta iota.
  rewrite Hopen. cbn beta iota.
  destruct (get_all_text [] pages) as [tr r]. reflexivity.
Qed.

End IntakeFacts.

(** X4.  For an uploaded PDF that opens and whose pages all give their
    text, [process_pdf] returns the texts of the pages joined in page
    order without a separator and shows nothing; file intake hands on one
    part of type text/plain holding the UTF-8 bytes of that text. *)
Theorem pdf_pages_joined_in_order (w : World) (f : UploadedFile)
        (content : bytes) (texts : list str) :
  f.(type_) = lit "application/pdf" ->
  w.(NamedTemporaryFile) = inr tt ->
  f.(read) = inr content ->
  w.(fitz_open) content = inr (map inr texts) ->
  process_pdf w f = ([], Returns (Some (concat texts))) /\
  outcome (file_intake w (Some f))
  = Returns (Some [ {| mime_type := lit "text/plain";
                       data := encode (concat texts) |} ]).
Proof.
  intros Htype Htmp Hread Hopen.
  assert (Htext : read_pdf_text w f = ([], Returns (concat texts))).
  { rewrite (read_pdf_text_opened w f Htmp Hread Hopen).
    apply get_all_text_pages. }
  split.
  - rewrite process_pdf_cases, Htext. reflexivity.
  - rewrite file_intake_cases, Htype, pdf_is_no_image_type, pdf_is_pdf, Htext.
    reflexivity.
Qed.

(** X5.  When one page of an uploaded PDF fails to give its text,
    [process_pdf] gives up the whole document: it shows the error of the
    first failing page and returns [None], and the text of the pages read
    before is lost. *)
Theorem pdf_failing_page_loses_document (w : World) (f : UploadedFile)
        (content : bytes) (texts : list str) (e : exn) (rest : list page) :
  w.(NamedTemporaryFile) = inr tt ->
  f.(read) = inr content ->
  w.(fitz_open) content = inr (map inr texts ++ inl e :: rest) ->
  process_pdf w f
  = ([St_error (lit "Error processing PDF: " ++ e.(msg))], Returns None).
Proof.
  intros Htmp Hread Hopen.
  assert (Htext : read_pdf_text w f = ([], Raises e)).
  { rewrite (read_pdf_text_opened w f Htmp Hread Hopen).
    apply get_all_text_failing_page. }
  rewrite process_pdf_cases, Htext. reflexivity.
Qed.

(** X6.  For an uploaded PDF whose text was read and is not empty, file
    intake shows the preview: the first 1500 characters of the text
    followed by three dots, so never more than 1503 characters, and all
    of a text of at most 1500 characters. *)
Theorem pdf_preview_is_truncated (w : World) (f : UploadedFile) (t : str) :
  f.(type_) = lit "application/pdf" ->
  outcome (read_pdf_text w f) = Returns t ->
  t <> [] ->
  trace (file_intake w (Some f))
  = [St_subheader (lit "Uploaded PDF Content Preview");
     St_text_area (lit "PDF Content") (firstn 1500 t ++ lit "...") 400] /\
  length (firstn 1500 t ++ lit "...") <= 1503 /\
  (length t <= 1500 -> firstn 1500 t ++ lit "..." = t ++ lit "...").
Proof.
  intros Htype Htext Hne.
  rewrite file_intake_cases, Htype, pdf_is_no_image_type, pdf_is_pdf, Htext.
  unfold pdf_preview. destruct t as [|c t]; [contradiction|].
  split; [reflexivity|]. split.
  - rewrite length_app, length_firstn.
    change (length (lit "...")) with 3. lia.
  - intro Hlen. rewrite firstn_all2 by exact Hlen. reflexivity.
Qed.

(** X7.  An uploaded PDF whose text is empty, as for a scan without a
    text layer, gets no preview but is sent on all the same: the payload
    is one text/plain part without data, and the hosted model is called
    once with it. *)
Theorem empty_pdf_text_is_still_sent (w : World) (f : UploadedFile) :
  f.(type_) = lit "application/pdf" ->
  outcome (read_pdf_text w f) = Returns [] ->
  file_intake w (Some f)
  = ([], Returns (Some [ {| mime_type := lit "text/plain"; data := [] |} ])) /\
  model_calls (trace (on_upload w (Some f))) = 1 /\
  In (Call_generate_content {| mime_type := lit "text/plain"; data := [] |}
                            input_prompt)
     (trace (on_upload w (Some f))).
Proof.
  intros Htype Htext.
  assert (Hintake : file_intake w (Some f)
                    = ([], Returns (Some [ {| mime_type := lit "text/plain";
                                              data := [] |} ]))).
  { rewrite file_intake_cases, Htype, pdf_is_no_image_type, pdf_is_pdf, Htext.
    reflexivity. }
  split; [exact Hintake|].
  rewrite on_upload_unfold, Hintake. unfold trace, outcome. cbn [fst snd app].
  split; [apply extract_and_show_one_call|].
  rewrite extract_and_show_unfold, get_po_details_cases. cbn [fst In].
  right. destruct (w.(generate_content) _ _) as [e|r];
    [left; reflexivity|].
  destruct r.(text) as [e|[|c t]]; left; reflexivity.
Qed.

(** X8.  For an uploaded image that PIL opens, that [st.image] shows and
    whose bytes can be read, file intake shows the image and hands on one
    part with the media type the file declares and the bytes of the file
    unchanged. *)
Theorem image_is_forwarded_unchanged (w : World) (f : UploadedFile)
        (b : bytes) :
  str_in f.(type_) image_types = true ->
  w.(Image_open) f = inr tt ->
  w.(st_image) f = inr tt ->
  f.(getvalue) = inr b ->
  file_intake w (Some f)
  = ([St_image (lit "Uploaded PO Image") 800],
     Returns (Some [ {| mime_type := f.(type_); data := b |} ])).
Proof.
  intros Htype Hopen Hshow Hbytes.
  rewrite file_intake_cases, Htype, Hopen, Hshow, Hbytes. reflexivity.
Qed.

(** X9.  When PIL cannot open an uploaded image, its exception leaves
    the script: nothing is shown, not even an error message, and the
    hosted model is not called. *)
Theorem image_open_failure_escapes (w : World) (f : UploadedFile) (e : exn) :
  str_in f.(type_) image_types = true ->
  w.(Image_open) f = inl e ->
  on_upload w (Some f) = ([], Raises e).
Proof.
  intros Htype Hopen.
  rewrite on_upload_unfold, file_intake_cases, Htype, Hopen. reflexivity.
Qed.

(** X10.  When an uploaded image opens and is shown but its bytes cannot
    be read, [input_image_setup] shows the error and returns [None]: the
    run ends normally and the hosted model is not called. *)
Theorem unreadable_image_bytes_reported (w : World) (f : UploadedFile)
        (e : exn) :
  str_in f.(type_) image_types = true ->
  w.(Image_open) f = inr tt ->
  w.(st_image) f = inr tt ->
  f.(getvalue) = inl e ->
  on_upload w (Some f)
  = ([St_image (lit "Uploaded PO Image") 800;
      St_error (lit "Error processing image: " ++ e.(msg))],
     Returns tt).
Proof.
  intros Htype Hopen Hshow Hbytes.
  rewrite on_upload_unfold, file_intake_cases, Htype, Hopen, Hshow, Hbytes.
  reflexivity.
Qed.

(** X11.  [input_image_setup] never raises.  Without a file it shows the
    warning and returns [None]; with a file it returns one part with the
    file's type and bytes and shows nothing, or, when the bytes cannot be
    read, shows the error and returns [None]. *)
Theorem input_image_setup_never_raises (uploaded_file : option UploadedFile) :
  input_image_setup uploaded_file
  = match uploaded_file with
    | None => ([St_warning (lit "No file uploaded.")], Returns None)
    | Some f =>
        match f.(getvalue) with
        | inr b =>
            ([], Returns (Some [ {| mime_type := f.(type_); data := b |} ]))
        | inl e =>
            ([St_error (lit "Error processing image: " ++ e.(msg))],
             Returns None)
        end
    end.
Proof.
  destruct uploaded_file as [f|]; [|reflexivity].
  unfold input_image_setup, try_except, bind, lift, ret, raise, emit.
  destruct f.(getvalue); reflexivity.
Qed.

(** *** Whole runs *)

(** Lines 113 to 125 split by the type of the file and by what the
    outside world gives. *)
Ltac intake_cases w f :=
  rewrite ?on_upload_unfold, ?file_intake_cases;
  destruct (str_in (type_ f) image_types) eqn:Himage;
  [ destruct (Image_open w f) as [e_open|[]] eqn:Hopen;
    [| destruct (st_image w f) as [e_show|[]] eqn:Hshow;
       [| destruct (getvalue f) as [e_bytes|b] eqn:Hbytes ] ]
  | destruct (str_eqb (type_ f) (lit "application/pdf")) eqn:Hpdf;
    [ destruct (outcome (read_pdf_text w f)) as [t_pdf|e_pdf] eqn:Hread;
      [ unfold pdf_preview; destruct (truthy t_pdf) eqn:Hshown |]
    |] ];
  unfold trace, outcome; cbn [fst snd app].

(** Lines 129 to 167 split by what the model, the parser and the
    spreadsheet writer give. *)
Ltac extract_cases w p :=
  rewrite ?extract_and_show_unfold, ?get_po_details_cases;
  destruct (generate_content w p input_prompt) as [e_call|r] eqn:Hcall;
  [| destruct (text r) as [e_text|[|c t]] eqn:Htext ];
  unfold trace, outcome; cbn [fst snd app];
  try match goal with
      | |- context [after_response _ (Some ?a)] =>
          unfold after_response;
          destruct (truthy (strip a)) eqn:Hstrip;
          [ destruct (parse_response w a) as [e_parse|df] eqn:Hparse;
            [| destruct (st_dataframe w df) as [e_df|[]] eqn:Hdf;
               [| destruct (to_excel w df) as [e_xl|buffer] eqn:Hxl ] ] |]
      end.

(** Membership in an explicit trace, event by event. *)
Ltac in_trace H :=
  cbn [In] in H;
  repeat (destruct H as [H|H]; [try discriminate H|]);
  try contradiction.

Definition is_warning (ev : event) : bool :=
  match ev with St_warning _ => true | _ => false end.

Definition shows_warning (tr : list event) : bool := existsb is_warning tr.

(** X12.  The warning that no file was uploaded is never shown by the
    script: [input_image_setup] is only called with a file, so its branch
    for a missing file is out of reach, and a run without an upload ends
    silently. *)
Theorem no_file_warning_never_shown (w : World)
        (uploaded_file : option UploadedFile) :
  shows_warning (trace (script w uploaded_file)) = false.
Proof.
  unfold script.
  destruct w.(secrets_GOOGLE_API_KEY) as [e|key] eqn:Hkey; [reflexivity|].
  pose proof (script_unfold w uploaded_file Hkey) as Hs.
  unfold script in Hs. rewrite Hkey in Hs. rewrite Hs. clear Hs.
  unfold trace at 1. cbn [fst]. unfold shows_warning. cbn [existsb is_warning].
  cbn [orb]. destruct uploaded_file as [f|]; [|reflexivity].
  intake_cases w f; try reflexivity.
  - extract_cases w {| mime_type := type_ f; data := b |}; reflexivity.
  - extract_cases w (text_part t_pdf); reflexivity.
  - extract_cases w (text_part t_pdf); reflexivity.
Qed.

(** Without the secret GOOGLE_API_KEY the script stops at line 17
    with the exception of the secret store: nothing is shown, the upload
    is not looked at and the hosted model is not called. *)
Theorem missing_secret_stops_script (w : World)
        (uploaded_file : option UploadedFile) (e : exn) :
  w.(secrets_GOOGLE_API_KEY) = inl e ->
  script w uploaded_file = ([], Raises e).
Proof. intro Hkey. unfold script. rewrite Hkey. reflexivity. Qed.

(** X13.  When the table was parsed and [st.dataframe] has shown it but
    writing the spreadsheet raises, the error is reported under the table
    and no download is offered. *)
Theorem export_failure_after_table_shown (w : World) (p : part)
        (ps : list part) (t : str) (df : DataFrame) (e : exn) :
  model_answers w p t ->
  truthy (strip t) = true ->
  parse_response w t = inr df ->
  w.(st_dataframe) df = inr tt ->
  w.(to_excel) df = inl e ->
  extract_and_show w (Some (p :: ps))
  = ([subheader_details; Call_generate_content p input_prompt;
      raw_response t; Call_read_csv t; St_dataframe df; Call_to_excel df;
      St_error
        (lit "Failed to process the response. Please try again. Error: "
         ++ e.(msg))],
     Returns tt).
Proof.
  intros Hans Hstrip Hparse Hdf Hxl.
  rewrite (extract_and_show_answer ps Hans).
  destruct t as [|c t]; [discriminate Hstrip|].
  unfold after_response. rewrite Hstrip, Hparse, Hdf, Hxl. reflexivity.
Qed.

(** X14.  When the model answers with a text that is not blank, the text
    parses, [st.dataframe] takes the table and the spreadsheet is written,
    the run shows the parsed table, exports that same table and offers
    the bytes written under the name data.xlsx with the spreadsheet media
    type; no error is reported. *)
Theorem successful_extraction (w : World) (p : part) (ps : list part)
        (t : str) (df : DataFrame) (buffer : bytes) :
  model_answers w p t ->
  truthy (strip t) = true ->
  parse_response w t = inr df ->
  w.(st_dataframe) df = inr tt ->
  w.(to_excel) df = inr buffer ->
  extract_and_show w (Some (p :: ps))
  = ([subheader_details; Call_generate_content p input_prompt;
      raw_response t; Call_read_csv t; St_dataframe df; Call_to_excel df;
      St_download_button
        (lit "Download as Excel") buffer (lit "data.xlsx")
        (lit "application/vnd.openxmlformats-officedocument.spreadsheetml.sheet")],
     Returns tt) /\
  reports_error (trace (extract_and_show w (Some (p :: ps)))) = false.
Proof.
  intros Hans Hstrip Hparse Hdf Hxl.
  rewrite (extract_and_show_answer ps Hans).
  destruct t as [|c t]; [discriminate Hstrip|].
  unfold after_response. rewrite Hstrip, Hparse, Hdf, Hxl.
  split; reflexivity.
Qed.

(** X15.  Whenever a run offers a download, it is the button labelled
    Download as Excel for the file data.xlsx with the spreadsheet media
    type; its content is what the spreadsheet writer gave for a table the
    run has shown, and the run has reported no error. *)
Theorem download_is_export_of_shown_table (w : World)
        (uploaded_file : option UploadedFile)
        (name : str) (content : bytes) (file_name mime : str) :
  In (St_download_button name content file_name mime)
     (trace (on_upload w uploaded_file)) ->
  name = lit "Download as Excel" /\
  file_name = lit "data.xlsx" /\
  mime = lit "application/vnd.openxmlformats-officedocument.spreadsheetml.sheet" /\
  (exists df,
     In (St_dataframe df) (trace (on_upload w uploaded_file)) /\
     w.(to_excel) df = inr content) /\
  reports_error (trace (on_upload w uploaded_file)) = false.
Proof.
  destruct uploaded_file as [f|]; [|intro H; in_trace H].
  intake_cases w f; try solve [intro H; in_trace H].
  - extract_cases w {| mime_type := type_ f; data := b |};
      intro H; in_trace H.
    unfold download_button in H. injection H as <- <- <- <-.
    repeat split. exists df. split; [|exact Hxl].
    cbn [In]. repeat (first [left; reflexivity | right]).
  - extract_cases w (text_part t_pdf); intro H; in_trace H.
    unfold download_button in H. injection H as <- <- <- <-.
    repeat split. exists df. split; [|exact Hxl].
    cbn [In]. repeat (first [left; reflexivity | right]).
  - extract_cases w (text_part t_pdf); intro H; in_trace H.
    unfold download_button in H. injection H as <- <- <- <-.
    repeat split. exists df. split; [|exact Hxl].
    cbn [In]. repeat (first [left; reflexivity | right]).
Qed.

(** X16.  Only three exceptions can leave lines 109 to 167: the one PIL
    raises when it cannot open an uploaded image, the one [st.image]
    raises when it cannot show the image PIL opened, and the
    [AttributeError] of line 125 after the text of an uploaded PDF could
    not be read.  Every other failure ends the run normally. *)
Theorem escaping_exceptions (w : World) (uploaded_file : option UploadedFile)
        (e : exn) :
  outcome (on_upload w uploaded_file) = Raises e ->
  exists f,
    uploaded_file = Some f /\
    ((str_in f.(type_) image_types = true /\ w.(Image_open) f = inl e) \/
     (str_in f.(type_) image_types = true /\ w.(Image_open) f = inr tt /\
      w.(st_image) f = inl e) \/
     (str_in f.(type_) image_types = false /\
      str_eqb f.(type_) (lit "application/pdf") = true /\
      (exists e', outcome (read_pdf_text w f) = Raises e') /\
      e = none_has_no_attribute "encode")).
Proof.
  destruct uploaded_file as [f|]; [|discriminate].
  intake_cases w f; intro H; try discriminate H.
  - injection H as <-. exists f. split; [reflexivity|]. left.
    split; [exact Himage | exact Hopen].
  - injection H as <-. exists f. split; [reflexivity|]. right. left.
    split; [exact Himage|]. split; [exact Hopen | exact Hshow].
  - injection H as <-. exists f. split; [reflexivity|]. right. right.
    split; [exact Himage|]. split; [exact Hpdf|].
    split; [exists e_pdf; exact Hread | reflexivity].
Qed.

(** X17.  Every call to the hosted model carries the fixed prompt of
    [get_po_details] and the first part of the payload that file intake
    handed on; nothing else is ever sent. *)
Theorem only_prompt_and_first_part_sent (w : World)
        (uploaded_file : option UploadedFile) (p : part) (prompt : str) :
  In (Call_generate_content p prompt) (trace (on_upload w uploaded_file)) ->
  prompt = input_prompt /\
  exists ps, outcome (file_intake w uploaded_file) = Returns (Some (p :: ps)).
Proof.
  destruct uploaded_file as [f|]; [|intro H; in_trace H].
  intake_cases w f; try solve [intro H; in_trace H].
  - extract_cases w {| mime_type := type_ f; data := b |};
      intro H; in_trace H; injection H as <- <-;
      (split; [reflexivity | exists []; reflexivity]).
  - extract_cases w (text_part t_pdf);
      intro H; in_trace H; injection H as <- <-;
      (split; [reflexivity | exists []; reflexivity]).
  - extract_cases w (text_part t_pdf);
      intro H; in_trace H; injection H as <- <-;
      (split; [reflexivity | exists []; reflexivity]).
Qed.


(** *** The parser on any response *)

Lemma filter_map_rows (g : list str -> list str)
      (rs : list (label * list str)) :
  filter (fun r => negb (is_label (Z.of_nat 0) (fst r)))
         (map (fun r => (fst r, g (snd r))) rs)
  = map (fun r => (fst r, g (snd r)))
        (filter (fun r => negb (is_label (Z.of_nat 0) (fst r))) rs).
Proof.
  induction rs as [|r rs IH]; [reflexivity|].
  cbn [map filter fst]. destruct (negb (is_label (Z.of_nat 0) (fst r)));
    cbn [map]; rewrite IH; reflexivity.
Qed.

Lemma filter_shorter {A} (f : A -> bool) (l : list A) :
  existsb f l = true -> length (filter (fun x => negb (f x)) l) < length l.
Proof.
  induction l as [|x l IH]; [discriminate|].
  cbn [existsb filter length].
  pose proof (filter_length_le (fun x => negb (f x)) l) as Hle.
  destruct (f x); cbn [negb orb length]; [lia|].
  intro H. specialize (IH H). lia.
Qed.

(** X19.  Whatever the response, a parse that succeeds has removed every
    row labelled 0 of the table read, and so at least one row; it keeps
    the other rows in order, cut down to the columns kept, and labels
    them 0, 1, 2 and so on without a gap. *)
Theorem parsed_rows_dropped_and_renumbered (w : World) (t : str)
        (final : DataFrame) :
  parse_response w t = inr final ->
  exists df,
    read_csv w.(dedup_names) w.(index_label) t = inr df /\
    map snd final.(rows)
    = map (fun r => select (invert (contains_Unnamed df.(columns))) (snd r))
          (filter (fun r => negb (is_label 0 (fst r))) df.(rows)) /\
    map fst final.(rows) = range_index (length final.(rows)) /\
    length final.(rows) < length df.(rows).
Proof.
  unfold parse_response.
  destruct (read_csv _ _ t) as [e|df]; [discriminate|].
  unfold drop, loc_columns. cbn [rows columns].
  destruct (existsb _ _) eqn:Hzero; [|discriminate].
  intro H. injection H as <-. exists df. split; [reflexivity|].
  unfold reset_index. cbn [rows columns].
  change (Z.of_nat 0) with 0%Z in *.
  set (kept_rows := filter _ (map _ df.(rows))) in *.
  assert (Hlen : length (range_index (length kept_rows))
                 = length (map snd kept_rows))
    by (rewrite length_range_index, length_map; reflexivity).
  rewrite (map_snd_combine _ _ Hlen), (map_fst_combine _ _ Hlen).
  rewrite length_combine, Hlen, Nat.min_id, length_map.
  subst kept_rows. split; [|split; [reflexivity|]].
  - rewrite (filter_map_rows
               (select (invert (contains_Unnamed df.(columns))))).
    rewrite map_map. reflexivity.
  - pose proof (filter_shorter _ _ Hzero) as Hlt.
    rewrite length_map in Hlt. exact Hlt.
Qed.

(** *** The two display calls that can fail *)

(** X20.  When PIL opens an uploaded image but [st.image] cannot show it,
    as for a file whose pixel data is cut short, the exception of
    [st.image] leaves the script: nothing is shown, not even an error
    message, the bytes are not read and the hosted model is not
    called. *)
Theorem image_display_failure_escapes (w : World) (f : UploadedFile)
        (e : exn) :
  str_in f.(type_) image_types = true ->
  w.(Image_open) f = inr tt ->
  w.(st_image) f = inl e ->
  on_upload w (Some f) = ([], Raises e) /\
  model_calls (trace (on_upload w (Some f))) = 0.
Proof.
  intros Htype Hopen Hshow.
  assert (Hrun : on_upload w (Some f) = ([], Raises e)).
  { rewrite on_upload_unfold, file_intake_cases, Htype, Hopen, Hshow.
    reflexivity. }
  rewrite Hrun. split; reflexivity.
Qed.

(** X21.  When the response parses but [st.dataframe] cannot take the
    table, the handler of the parser path reports the error: no table is
    shown, the spreadsheet writer is not called, no download is offered,
    and the run ends normally. *)
Theorem table_display_failure_reported (w : World) (p : part)
        (ps : list part) (t : str) (df : DataFrame) (e : exn) :
  model_answers w p t ->
  truthy (strip t) = true ->
  parse_response w t = inr df ->
  w.(st_dataframe) df = inl e ->
  extract_and_show w (Some (p :: ps))
  = ([subheader_details; Call_generate_content p input_prompt;
      raw_response t; Call_read_csv t;
      St_error
        (lit "Failed to process the response. Please try again. Error: "
         ++ e.(msg))],
     Returns tt) /\
  shows_table (trace (extract_and_show w (Some (p :: ps)))) = false /\
  offers_download (trace (extract_and_show w (Some (p :: ps)))) = false.
Proof.
  intros Hans Hstrip Hparse Hdf.
  assert (Hrun : extract_and_show w (Some (p :: ps))
                 = ([subheader_details; Call_generate_content p input_prompt;
                     raw_response t; Call_read_csv t;
                     St_error (failed_to_process e)],
                    Returns tt)).
  { rewrite (extract_and_show_answer ps Hans).
    destruct t as [|c t]; [discriminate Hstrip|].
    unfold after_response. rewrite Hstrip, Hparse, Hdf. reflexivity. }
  split; [exact Hrun|]. rewrite Hrun. split; reflexivity.
Qed.

(** *** The further properties on concrete runs *)

Module MoreRuns.

Import Cases Runs.

Definition api_error : exn :=
  Exn (LibraryError "ResourceExhausted") (lit "429 quota exceeded").

Definition page_error : exn :=
  Exn (LibraryError "RuntimeError") (lit "page not loaded").

Definition image_error_raised : exn :=
  Exn (LibraryError "UnidentifiedImageError")
      (lit "cannot identify image file").

Definition closed_file_error : exn :=
  Exn ValueError (lit "I/O operation on closed file.").

Definition secret_error : exn :=
  Exn KeyError (lit "'st.secrets has no key GOOGLE_API_KEY'").

Definition writer_error : exn :=
  Exn (LibraryError "ModuleNotFoundError") (lit "No module named 'openpyxl'").

(** The hosted model refuses the call. *)
Definition model_down : World := world (inl api_error) (inr []).

(** An uploaded PDF has two pages of text. *)
Definition two_pages : World :=
  world (answers markdown_table)
        (inr [inr (lit "Purchase Order 4711 "); inr (lit "Acme Ltd")]).

(** The second of three pages cannot be read. *)
Definition bad_second_page : World :=
  world (answers markdown_table)
        (inr (map inr [lit "Purchase Order 4711 "]
              ++ inl page_error :: [inr (lit "Acme Ltd")])).

(** PIL does not recognise the image. *)
Definition image_unreadable : World :=
  {| secrets_GOOGLE_API_KEY := inr (lit "key");
     Image_open := fun _ => inl image_error_raised;
     st_image := fun _ => inr tt;
     NamedTemporaryFile := inr tt;
     fitz_open := fun _ => inr [];
     generate_content := fun _ _ => answers markdown_table;
     st_dataframe := fun _ => inr tt;
     to_excel := fun _ => inr [Byte.x50; Byte.x4b];
     dedup_names := fun names => names;
     index_label := fun _ key => Lobj key |}.

(** The secret is not configured. *)
Definition no_secret : World :=
  {| secrets_GOOGLE_API_KEY := inl secret_error;
     Image_open := fun _ => inr tt;
     st_image := fun _ => inr tt;
     NamedTemporaryFile := inr tt;
     fitz_open := fun _ => inr [];
     generate_content := fun _ _ => answers markdown_table;
     st_dataframe := fun _ => inr tt;
     to_excel := fun _ => inr [Byte.x50; Byte.x4b];
     dedup_names := fun names => names;
     index_label := fun _ key => Lobj key |}.

(** The spreadsheet writer is missing. *)
Definition no_writer : World :=
  {| secrets_GOOGLE_API_KEY := inr (lit "key");
     Image_open := fun _ => inr tt;
     st_image := fun _ => inr tt;
     NamedTemporaryFile := inr tt;
     fitz_open := fun _ => inr [];
     generate_content := fun _ _ => answers markdown_table;
     st_dataframe := fun _ => inr tt;
     to_excel := fun _ => inl writer_error;
     dedup_names := fun names => names;
     index_label := fun _ key => Lobj key |}.

Definition truncated_error : exn :=
  Exn (LibraryError "OSError") (lit "image file is truncated").

Definition conversion_error : exn :=
  Exn (LibraryError "ArrowInvalid")
      (lit "Could not convert value to the column type").

(** PIL identifies the image, but its pixel data is cut short. *)
Definition image_truncated : World :=
  {| secrets_GOOGLE_API_KEY := inr (lit "key");
     Image_open := fun _ => inr tt;
     st_image := fun _ => inl truncated_error;
     NamedTemporaryFile := inr tt;
     fitz_open := fun _ => inr [];
     generate_content := fun _ _ => answers markdown_table;
     st_dataframe := fun _ => inr tt;
     to_excel := fun _ => inr [Byte.x50; Byte.x4b];
     dedup_names := fun names => names;
     index_label := fun _ key => Lobj key |}.

(** The table cannot be converted for display. *)
Definition frame_rejected : World :=
  {| secrets_GOOGLE_API_KEY := inr (lit "key");
     Image_open := fun _ => inr tt;
     st_image := fun _ => inr tt;
     NamedTemporaryFile := inr tt;
     fitz_open := fun _ => inr [];
     generate_content := fun _ _ => answers markdown_table;
     st_dataframe := fun _ => inl conversion_error;
     to_excel := fun _ => inr [Byte.x50; Byte.x4b];
     dedup_names := fun names => names;
     index_label := fun _ key => Lobj key |}.

(** An image whose buffer has been closed. *)
Definition closed_png : UploadedFile :=
  {| type_ := lit "image/png";
     getvalue := inl closed_file_error;
     read := inl closed_file_error |}.

Definition pdf_bytes : bytes := [Byte.x25; Byte.x50; Byte.x44; Byte.x46].

Local Abbreviation good_run := (on_upload (answering markdown_table) (Some png)).

Lemma failed_model_call_reported_twice_witness :
  model_down.(generate_content) png_part input_prompt = inl api_error /\
  extract_and_show model_down (Some [png_part])
  = ([subheader_details; Call_generate_content png_part input_prompt;
      St_error (lit "Error with Gemini model: 429 quota exceeded");
      St_error
        (lit "Failed to process the response. Please try again. Error: 'NoneType' object has no attribute 'strip'")],
     Returns tt).
Proof.
  split; [reflexivity|].
  exact (@failed_model_call_reported_twice model_down png_part [] api_error
           eq_refl).
Defined.

Lemma empty_message_iff_whitespace_witness :
  model_answers (answering blank) png_part blank /\
  (In response_is_empty
      (trace (extract_and_show (answering blank) (Some [png_part])))
   <-> blank <> [] /\ forallb isspace blank = true).
Proof.
  split; [apply answering_answers|].
  exact (@empty_message_iff_whitespace (answering blank) png_part [] blank
           (answering_answers blank png_part)).
Defined.

Lemma pdf_pages_joined_in_order_witness :
  pdf.(type_) = lit "application/pdf" /\
  two_pages.(NamedTemporaryFile) = inr tt /\
  pdf.(read) = inr pdf_bytes /\
  two_pages.(fitz_open) pdf_bytes
  = inr (map inr [lit "Purchase Order 4711 "; lit "Acme Ltd"]) /\
  process_pdf two_pages pdf
  = ([], Returns (Some (lit "Purchase Order 4711 Acme Ltd"))) /\
  outcome (file_intake two_pages (Some pdf))
  = Returns (Some [ {| mime_type := lit "text/plain";
                       data := encode (lit "Purchase Order 4711 Acme Ltd") |} ]).
Proof.
  do 4 (split; [reflexivity|]).
  exact (@pdf_pages_joined_in_order two_pages pdf pdf_bytes
           [lit "Purchase Order 4711 "; lit "Acme Ltd"]
           eq_refl eq_refl eq_refl eq_refl).
Defined.

Lemma pdf_failing_page_loses_document_witness :
  bad_second_page.(NamedTemporaryFile) = inr tt /\
  pdf.(read) = inr pdf_bytes /\
  bad_second_page.(fitz_open) pdf_bytes
  = inr (map inr [lit "Purchase Order 4711 "]
         ++ inl page_error :: [inr (lit "Acme Ltd")]) /\
  process_pdf bad_second_page pdf
  = ([St_error (lit "Error processing PDF: page not loaded")], Returns None).
Proof.
  do 3 (split; [reflexivity|]).
  exact (@pdf_failing_page_loses_document bad_second_page pdf pdf_bytes
           [lit "Purchase Order 4711 "] page_error [inr (lit "Acme Ltd")]
           eq_refl eq_refl eq_refl).
Defined.

Lemma pdf_preview_is_truncated_witness :
  pdf.(type_) = lit "application/pdf" /\
  outcome (read_pdf_text two_pages pdf)
  = Returns (lit "Purchase Order 4711 Acme Ltd") /\
  lit "Purchase Order 4711 Acme Ltd" <> [] /\
  trace (file_intake two_pages (Some pdf))
  = [St_subheader (lit "Uploaded PDF Content Preview");
     St_text_area (lit "PDF Content")
                  (lit "Purchase Order 4711 Acme Ltd...") 400].
Proof.
  assert (Hne : lit "Purchase Order 4711 Acme Ltd" <> []) by discriminate.
  split; [reflexivity|]. split; [reflexivity|]. split; [exact Hne|].
  exact (proj1 (@pdf_preview_is_truncated two_pages pdf
                  (lit "Purchase Order 4711 Acme Ltd") eq_refl eq_refl Hne)).
Defined.

Lemma empty_pdf_text_is_still_sent_witness :
  pdf.(type_) = lit "application/pdf" /\
  outcome (read_pdf_text (answering markdown_table) pdf) = Returns [] /\
  file_intake (answering markdown_table) (Some pdf)
  = ([], Returns (Some [ {| mime_type := lit "text/plain"; data := [] |} ])) /\
  model_calls (trace (on_upload (answering markdown_table) (Some pdf))) = 1 /\
  In (Call_generate_content {| mime_type := lit "text/plain"; data := [] |}
                            input_prompt)
     (trace (on_upload (answering markdown_table) (Some pdf))).
Proof.
  split; [reflexivity|]. split; [reflexivity|].
  exact (@empty_pdf_text_is_still_sent (answering markdown_table) pdf
           eq_refl eq_refl).
Defined.

Lemma image_is_forwarded_unchanged_witness :
  str_in png.(type_) image_types = true /\
  (answering markdown_table).(Image_open) png = inr tt /\
  (answering markdown_table).(st_image) png = inr tt /\
  png.(getvalue) = inr [Byte.x89; Byte.x50; Byte.x4e; Byte.x47] /\
  file_intake (answering markdown_table) (Some png)
  = ([St_image (lit "Uploaded PO Image") 800], Returns (Some [png_part])).
Proof.
  do 4 (split; [reflexivity|]).
  exact (@image_is_forwarded_unchanged (answering markdown_table) png
           [Byte.x89; Byte.x50; Byte.x4e; Byte.x47]
           eq_refl eq_refl eq_refl eq_refl).
Defined.

Lemma image_open_failure_escapes_witness :
  str_in png.(type_) image_types = true /\
  image_unreadable.(Image_open) png = inl image_error_raised /\
  on_upload image_unreadable (Some png) = ([], Raises image_error_raised).
Proof.
  do 2 (split; [reflexivity|]).
  exact (@image_open_failure_escapes image_unreadable png image_error_raised
           eq_refl eq_refl).
Defined.

Lemma unreadable_image_bytes_reported_witness :
  str_in closed_png.(type_) image_types = true /\
  (answering markdown_table).(Image_open) closed_png = inr tt /\
  (answering markdown_table).(st_image) closed_png = inr tt /\
  closed_png.(getvalue) = inl closed_file_error /\
  on_upload (answering markdown_table) (Some closed_png)
  = ([St_image (lit "Uploaded PO Image") 800;
      St_error
        (lit "Error processing image: I/O operation on closed file.")],
     Returns tt).
Proof.
  do 4 (split; [reflexivity|]).
  exact (@unreadable_image_bytes_reported (answering markdown_table)
           closed_png closed_file_error eq_refl eq_refl eq_refl eq_refl).
Defined.

Lemma missing_secret_stops_script_witness :
  no_secret.(secrets_GOOGLE_API_KEY) = inl secret_error /\
  script no_secret (Some png) = ([], Raises secret_error).
Proof.
  split; [reflexivity|].
  exact (@missing_secret_stops_script no_secret (Some png) secret_error
           eq_refl).
Defined.

Lemma export_failure_after_table_shown_witness :
  model_answers no_writer png_part markdown_table /\
  truthy (strip markdown_table) = true /\
  parse_response no_writer markdown_table = inr parsed_table /\
  no_writer.(st_dataframe) parsed_table = inr tt /\
  no_writer.(to_excel) parsed_table = inl writer_error /\
  extract_and_show no_writer (Some [png_part])
  = ([subheader_details; Call_generate_content png_part input_prompt;
      raw_response markdown_table; Call_read_csv markdown_table;
      St_dataframe parsed_table; Call_to_excel parsed_table;
      St_error
        (lit "Failed to process the response. Please try again. Error: "
         ++ writer_error.(msg))],
     Returns tt).
Proof.
  assert (Hans : model_answers no_writer png_part markdown_table).
  { exists {| text := inr markdown_table |}. split; reflexivity. }
  assert (Hparse : parse_response no_writer markdown_table = inr parsed_table)
    by (vm_compute; reflexivity).
  split; [exact Hans|]. split; [reflexivity|]. split; [exact Hparse|].
  split; [reflexivity|]. split; [reflexivity|].
  exact (@export_failure_after_table_shown no_writer png_part []
           markdown_table parsed_table writer_error Hans eq_refl Hparse
           eq_refl eq_refl).
Defined.

Lemma successful_extraction_witness :
  model_answers (answering markdown_table) png_part markdown_table /\
  truthy (strip markdown_table) = true /\
  parse_response (answering markdown_table) markdown_table
  = inr parsed_table /\
  (answering markdown_table).(st_dataframe) parsed_table = inr tt /\
  (answering markdown_table).(to_excel) parsed_table
  = inr [Byte.x50; Byte.x4b] /\
  reports_error
    (trace (extract_and_show (answering markdown_table) (Some [png_part])))
  = false.
Proof.
  assert (Hparse : parse_response (answering markdown_table) markdown_table
                   = inr parsed_table) by (vm_compute; reflexivity).
  split; [apply answering_answers|]. split; [reflexivity|].
  split; [exact Hparse|]. split; [reflexivity|]. split; [reflexivity|].
  exact (proj2 (@successful_extraction (answering markdown_table) png_part []
                  markdown_table parsed_table [Byte.x50; Byte.x4b]
                  (answering_answers markdown_table png_part)
                  eq_refl Hparse eq_refl eq_refl)).
Defined.

Lemma download_is_export_of_shown_table_witness :
  In (St_download_button (lit "Download as Excel") [Byte.x50; Byte.x4b]
                         (lit "data.xlsx") xlsx_mime)
     (trace good_run) /\
  (exists df,
     In (St_dataframe df) (trace good_run) /\
     (answering markdown_table).(to_excel) df = inr [Byte.x50; Byte.x4b]) /\
  reports_error (trace good_run) = false.
Proof.
  assert (Hin : In (St_download_button (lit "Download as Excel")
                      [Byte.x50; Byte.x4b] (lit "data.xlsx") xlsx_mime)
                   (trace good_run)).
  { vm_compute. do 7 right. left. reflexivity. }
  split; [exact Hin|].
  exact (proj2 (proj2 (proj2
           (@download_is_export_of_shown_table
              (answering markdown_table) (Some png) _ _ _ _ Hin)))).
Defined.

Lemma parsed_rows_dropped_and_renumbered_witness :
  parse_response (answering markdown_table) markdown_table
  = inr parsed_table /\
  exists df,
    read_csv (answering markdown_table).(dedup_names)
             (answering markdown_table).(index_label) markdown_table
    = inr df /\
    map snd parsed_table.(rows)
    = map (fun r => select (invert (contains_Unnamed df.(columns))) (snd r))
          (filter (fun r => negb (is_label 0 (fst r))) df.(rows)) /\
    map fst parsed_table.(rows) = range_index (length parsed_table.(rows)) /\
    length parsed_table.(rows) < length df.(rows).
Proof.
  assert (Hparse : parse_response (answering markdown_table) markdown_table
                   = inr parsed_table) by (vm_compute; reflexivity).
  split; [exact Hparse|].
  exact (@parsed_rows_dropped_and_renumbered (answering markdown_table)
           markdown_table parsed_table Hparse).
Defined.

Lemma escaping_exceptions_witness :
  outcome (on_upload image_truncated (Some png)) = Raises truncated_error /\
  exists f,
    Some png = Some f /\
    ((str_in f.(type_) image_types = true /\
      image_truncated.(Image_open) f = inl truncated_error) \/
     (str_in f.(type_) image_types = true /\
      image_truncated.(Image_open) f = inr tt /\
      image_truncated.(st_image) f = inl truncated_error) \/
     (str_in f.(type_) image_types = false /\
      str_eqb f.(type_) (lit "application/pdf") = true /\
      (exists e', outcome (read_pdf_text image_truncated f) = Raises e') /\
      truncated_error = none_has_no_attribute "encode")).
Proof.
  split; [reflexivity|].
  exact (@escaping_exceptions image_truncated (Some png) truncated_error
           eq_refl).
Defined.

Lemma image_display_failure_escapes_witness :
  str_in png.(type_) image_types = true /\
  image_truncated.(Image_open) png = inr tt /\
  image_truncated.(st_image) png = inl truncated_error /\
  on_upload image_truncated (Some png) = ([], Raises truncated_error) /\
  model_calls (trace (on_upload image_truncated (Some png))) = 0.
Proof.
  do 3 (split; [reflexivity|]).
  exact (@image_display_failure_escapes image_truncated png truncated_error
           eq_refl eq_refl eq_refl).
Defined.

Lemma table_display_failure_reported_witness :
  model_answers frame_rejected png_part markdown_table /\
  truthy (strip markdown_table) = true /\
  parse_response frame_rejected markdown_table = inr parsed_table /\
  frame_rejected.(st_dataframe) parsed_table = inl conversion_error /\
  extract_and_show frame_rejected (Some [png_part])
  = ([subheader_details; Call_generate_content png_part input_prompt;
      raw_response markdown_table; Call_read_csv markdown_table;
      St_error
        (lit "Failed to process the response. Please try again. Error: "
         ++ conversion_error.(msg))],
     Returns tt) /\
  shows_table (trace (extract_and_show frame_rejected (Some [png_part])))
  = false /\
  offers_download (trace (extract_and_show frame_rejected (Some [png_part])))
  = false.
Proof.
  assert (Hans : model_answers frame_rejected png_part markdown_table).
  { exists {| text := inr markdown_table |}. split; reflexivity. }
  assert (Hparse : parse_response frame_rejected markdown_table
                   = inr parsed_table) by (vm_compute; reflexivity).
  split; [exact Hans|]. split; [reflexivity|]. split; [exact Hparse|].
  split; [reflexivity|].
  exact (@table_display_failure_reported frame_rejected png_part []
           markdown_table parsed_table conversion_error Hans eq_refl Hparse
           eq_refl).
Defined.

Lemma only_prompt_and_first_part_sent_witness :
  In (Call_generate_content png_part input_prompt) (trace good_run) /\
  input_prompt = input_prompt /\
  exists ps,
    outcome (file_intake (answering markdown_table) (Some png))
    = Returns (Some (png_part :: ps)).
Proof.
  assert (Hin : In (Call_generate_content png_part input_prompt)
                   (trace good_run)).
  { vm_compute. do 2 right. left. reflexivity. }
  split; [exact Hin|].
  exact (@only_prompt_and_first_part_sent
           (answering markdown_table) (Some png) _ _ Hin).
Defined.


End MoreRuns.
